(** * tinyLM: the sweep driver [main.py]

    A shallow embedding of [main.py] of lordzuko/tinyLM: the validation
    window builder [get_val_dataset], the model selector [pick_best], the
    configuration profiles [get_ff_config] and [get_gpt_config], one
    training run [train], and the hyperparameter sweep of the [__main__]
    block.

    Python values are modelled as follows.
    - [float] is IEEE 754 binary64, as the inductive [spec_float] of the
      standard library with its comparison and its multiplication at
      precision 53 and maximal exponent 1024.
    - [str] is a list of characters; [int] is [Z], and [nat] where the value
      is a length, an index or a run counter.
    - A [CfgNode] is a record with one field per attribute that [main.py]
      reads or writes; an attribute that may be absent is an [option].
    - Exceptions are values of [exn]; a computation that may raise returns
      [exn + A].
    - Console output, object construction and calls into the collaborating
      modules (dataset.py, model.py, gpt.py, trainer.py, utils.py) are
      recorded in an event log that is threaded through the program together
      with an allocation counter giving every constructed object its
      identity. *)

From Stdlib Require Import String Ascii ZArith List Bool Arith Lia SpecFloat.
Import ListNotations.

Set Implicit Arguments.

(* ------------------------------------------------------------------ *)
(** * Exceptions *)

Inductive exn : Type :=
| KeyError (c : ascii)
| ValueError
| OverflowError
| IndexError
| RuntimeError
| NameError
| UnboundLocalError.

(* ------------------------------------------------------------------ *)
(** * Python floats *)

Definition float : Type := spec_float.

Module PyFloat.

Definition prec : Z := 53.
Definition emax : Z := 1024.

(** [float(n)] for an integer [n]: rounded to the nearest binary64. *)
Definition of_int (n : Z) : float := binary_normalize prec emax n 0 false.

(** [x * y] *)
Definition mul (x y : float) : float := SFmul prec emax x y.

(** [x < y] and [x <= y]; both are [False] as soon as one side is NaN. *)
Definition ltb (x y : float) : bool := SFltb x y.
Definition leb (x y : float) : bool := SFleb x y.

(** [float('inf')] *)
Definition inf : float := S754_infinity false.

(** Conversion to [torch.float32], the default element type of a tensor
    built from Python floats: rounding to the nearest binary32, the result
    again written as a [spec_float]. *)
Definition to_float32 (x : float) : float :=
  match x with
  | S754_finite s m e => binary_round 24 128 s m e
  | _ => x
  end.

Definition is_nan (x : float) : bool :=
  match x with S754_nan => true | _ => false end.

(** [int(x)]: truncation toward zero; infinities and NaN raise. *)
Definition to_int (x : float) : exn + Z :=
  match x with
  | S754_zero _ => inr 0%Z
  | S754_finite s m e =>
      let a := Z.shiftl (Zpos m) e in
      inr (if s then (- a)%Z else a)
  | S754_infinity _ => inl OverflowError
  | S754_nan => inl ValueError
  end.

(** The literals of [main.py], each the binary64 nearest to the decimal. *)
Definition f_0_7 : float := S754_finite false 6305039478318694 (-53).
Definition f_2e_4 : float := S754_finite false 7378697629483821 (-65).
Definition f_3e_4 : float := S754_finite false 5534023222112865 (-64).
Definition f_5e_4 : float := S754_finite false 4611686018427388 (-63).
Definition f_0_9 : float := S754_finite false 8106479329266893 (-53).
Definition f_0_95 : float := S754_finite false 8556839292003942 (-53).
Definition f_0_1 : float := S754_finite false 7205759403792794 (-56).
Definition f_1_0 : float := S754_finite false 4503599627370496 (-52).
Definition f_0_05 : float := S754_finite false 7205759403792794 (-57).
(** Further values, used as sample losses. *)
Definition f_1_5 : float := S754_finite false 6755399441055744 (-52).
Definition f_2_25 : float := S754_finite false 5066549580791808 (-51).
Definition f_3_0 : float := S754_finite false 6755399441055744 (-51).
Definition f_4_0 : float := S754_finite false 4503599627370496 (-50).

End PyFloat.

(* ------------------------------------------------------------------ *)
(** * Sequences, slices and tensors *)

(** [l[a:b]] for indices [0 <= a <= b]; like Python, a slice that runs past
    the end is cut short. *)
Definition py_slice {A : Type} (l : list A) (a b : nat) : list A :=
  firstn (b - a) (skipn a l).

(** [l[:k]] and [l[k:]] for an arbitrary integer [k]: a negative [k] counts
    from the end. *)
Definition slice_bound (len : nat) (k : Z) : nat :=
  if (k <? 0)%Z then Z.to_nat (Z.max 0 (Z.of_nat len + k)) else Z.to_nat k.

Definition py_slice_to {A : Type} (l : list A) (k : Z) : list A :=
  firstn (slice_bound (length l) k) l.

Definition py_slice_from {A : Type} (l : list A) (k : Z) : list A :=
  skipn (slice_bound (length l) k) l.

(** A tensor built from nested lists of indices: its shape and its rows. *)
Record Tensor : Type := mkTensor { shape : list nat; rows : list (list nat) }.

(** [torch.tensor(rows)] for a list of lists. The empty list gives the empty
    one-dimensional tensor; rows of unequal length are refused. *)
Definition torch_tensor (rs : list (list nat)) : exn + Tensor :=
  match rs with
  | [] => inr (mkTensor [0] [])
  | r :: rest =>
      if forallb (fun r' => length r' =? length r) rest
      then inr (mkTensor [length rs; length r] rs)
      else inl ValueError
  end.

(** [torch.argmax] of a one-dimensional float tensor: the index of the first
    maximal entry, where NaN counts as maximal. [beats a b] says that a later
    entry [a] displaces the current best [b]. *)
Definition beats (a b : float) : bool :=
  match a with
  | S754_nan => negb (PyFloat.is_nan b)
  | _ => PyFloat.ltb b a
  end.

Fixpoint argmax_from (best_i : nat) (best : float) (i : nat) (l : list float)
  : nat :=
  match l with
  | [] => best_i
  | x :: l' =>
      if beats x best then argmax_from i x (S i) l'
      else argmax_from best_i best (S i) l'
  end.

Definition torch_argmax (scores : list float) : exn + nat :=
  match scores with
  | [] => inl IndexError
  | x :: l => inr (argmax_from 0 x 1 l)
  end.

(** [torch.tensor(scores)] for a list of Python floats: a one-dimensional
    [float32] tensor, every score rounded to binary32. *)
Definition torch_tensor_floats (scores : list float) : list float :=
  map PyFloat.to_float32 scores.

(* ------------------------------------------------------------------ *)
(** * [pick_best] *)

Section PickBest.

Variables ModelT DataT LossFn Logits : Type.

(** [model(inputs, targets, loss_fn)], a pair whose second component is the
    score. *)
Variable call : ModelT -> DataT -> DataT -> LossFn -> Logits * float.

Fixpoint pick_best_scores (models : list ModelT) (inputs targets : DataT)
  (loss_fn : LossFn) (scores : list float) : list float :=
  match models with
  | [] => scores
  | model :: rest =>
      pick_best_scores rest inputs targets loss_fn
        (scores ++ [snd (call model inputs targets loss_fn)])
  end.

Definition pick_best (models : list ModelT) (data : DataT * DataT)
  (loss_fn : LossFn) : exn + ModelT :=
  let '(inputs, targets) := data in
  let scores := pick_best_scores models inputs targets loss_fn [] in
  match torch_argmax (torch_tensor_floats scores) with
  | inl e => inl e
  | inr i =>
      match nth_error models i with
      | Some m => inr m
      | None => inl IndexError
      end
  end.

End PickBest.

(* ------------------------------------------------------------------ *)
(** * [get_val_dataset] *)

(** [data_config]: the block size is a length, hence a natural number. *)
Record DataConfig : Type := mkDataConfig { block_size : nat }.

Fixpoint get_val_dataset_loop (bs : nat) (val_data : list nat)
  (idxs : list nat) (inputs targets : list (list nat))
  : list (list nat) * list (list nat) :=
  match idxs with
  | [] => (inputs, targets)
  | idx :: rest =>
      get_val_dataset_loop bs val_data rest
        (inputs ++ [py_slice val_data idx (idx + bs)])
        (targets ++ [py_slice val_data (idx + 1) (idx + bs + 1)])
  end.

Definition get_val_dataset (data_config : DataConfig) (val_data : list nat)
  : exn + (Tensor * Tensor) :=
  let bs := block_size data_config in
  let '(inputs, targets) :=
    get_val_dataset_loop bs val_data
      (seq 0 (length val_data - bs)) [] [] in
  match torch_tensor inputs with
  | inl e => inl e
  | inr ti =>
      match torch_tensor targets with
      | inl e => inl e
      | inr tg => inr (ti, tg)
      end
  end.

(** The two slices that the loop appends at index [idx]. *)
Definition input_window (val_data : list nat) (bs idx : nat) : list nat :=
  py_slice val_data idx (idx + bs).

Definition target_window (val_data : list nat) (bs idx : nat) : list nat :=
  py_slice val_data (idx + 1) (idx + bs + 1).

(* ------------------------------------------------------------------ *)
(** * The character dataset *)

(** Modelled from the spec: the class [CharDataset] of dataset.py, which is
    not under src/. The spec says that the Dataset "derives its vocabulary as
    the sorted set of distinct characters appearing in the training split
    ... and assigns each a stable integer index", and that it "exposes
    vocabulary size and context length". [chars] is that sorted set, [stoi]
    the index of a character in it (absent for a character outside the
    vocabulary). *)
Fixpoint insert_char (c : ascii) (l : list ascii) : list ascii :=
  match l with
  | [] => [c]
  | d :: l' =>
      if (N_of_ascii c <? N_of_ascii d)%N then c :: l
      else if (N_of_ascii c =? N_of_ascii d)%N then l
      else d :: insert_char c l'
  end.

Definition sorted_chars (data : list ascii) : list ascii :=
  fold_right insert_char [] data.

Fixpoint index_of (c : ascii) (l : list ascii) : option nat :=
  match l with
  | [] => None
  | d :: l' =>
      if Ascii.eqb c d then Some 0
      else match index_of c l' with
           | Some i => Some (S i)
           | None => None
           end
  end.

Record CharDataset : Type := mkCharDataset {
  ds_config : DataConfig;
  ds_data : list ascii;
  chars : list ascii }.

Definition CharDataset_init (config : DataConfig) (data : list ascii)
  : CharDataset :=
  mkCharDataset config data (sorted_chars data).

Definition stoi (ds : CharDataset) (c : ascii) : option nat :=
  index_of c (chars ds).

Definition get_vocab_size (ds : CharDataset) : nat := length (chars ds).

Definition get_block_size (ds : CharDataset) : nat :=
  block_size (ds_config ds).

(** [[train_dataset.stoi[x] for x in s]]: the first character without an
    entry raises [KeyError]. *)
Fixpoint stoi_all (ds : CharDataset) (s : list ascii) : exn + list nat :=
  match s with
  | [] => inr []
  | x :: s' =>
      match stoi ds x with
      | None => inl (KeyError x)
      | Some i =>
          match stoi_all ds s' with
          | inl e => inl e
          | inr l => inr (i :: l)
          end
      end
  end.

(* ------------------------------------------------------------------ *)
(** * Configurations *)

Record SystemCfg : Type := mkSystemCfg { seed : Z; work_dir : string }.

(** [config.model]. The default profiles of the two model classes are not in
    [main.py]; of their attributes only [model_type] is read here, and the
    five others are those that [main.py] assigns. *)
Record ModelCfg : Type := mkModelCfg {
  model_type : string;
  m_vocab_size : option nat;
  m_block_size : option nat;
  m_learning_rate : option float;
  m_hidden_dim : option Z;
  m_n_embd : option Z }.

Record TrainerCfg : Type := mkTrainerCfg {
  device : string;
  num_workers : Z;
  max_iters : Z;
  batch_size : Z;
  learning_rate : float;
  betas : float * float;
  weight_decay : float;
  grad_norm_clip : float;
  patience : Z;
  validation_interval : Z;
  min_relative_improvement : float }.

(** The root node [C]; [c_id] is the identity of the object, and
    [c_vocab_size], [c_block_size] are the attributes that [train] adds to
    the root on its gpt path. *)
Record Config : Type := mkConfig {
  c_id : nat;
  c_system : SystemCfg;
  c_model : ModelCfg;
  c_trainer : TrainerCfg;
  c_vocab_size : option nat;
  c_block_size : option nat }.

Definition set_model_type (mc : ModelCfg) (v : string) : ModelCfg :=
  mkModelCfg v (m_vocab_size mc) (m_block_size mc) (m_learning_rate mc)
    (m_hidden_dim mc) (m_n_embd mc).

Definition set_m_vocab_size (mc : ModelCfg) (v : nat) : ModelCfg :=
  mkModelCfg (model_type mc) (Some v) (m_block_size mc) (m_learning_rate mc)
    (m_hidden_dim mc) (m_n_embd mc).

Definition set_m_block_size (mc : ModelCfg) (v : nat) : ModelCfg :=
  mkModelCfg (model_type mc) (m_vocab_size mc) (Some v) (m_learning_rate mc)
    (m_hidden_dim mc) (m_n_embd mc).

Definition set_m_learning_rate (mc : ModelCfg) (v : float) : ModelCfg :=
  mkModelCfg (model_type mc) (m_vocab_size mc) (m_block_size mc) (Some v)
    (m_hidden_dim mc) (m_n_embd mc).

Definition set_m_hidden_dim (mc : ModelCfg) (v : Z) : ModelCfg :=
  mkModelCfg (model_type mc) (m_vocab_size mc) (m_block_size mc)
    (m_learning_rate mc) (Some v) (m_n_embd mc).

Definition set_m_n_embd (mc : ModelCfg) (v : Z) : ModelCfg :=
  mkModelCfg (model_type mc) (m_vocab_size mc) (m_block_size mc)
    (m_learning_rate mc) (m_hidden_dim mc) (Some v).

(** [config.model = f(config.model)], the root keeping its identity. *)
Definition with_model (c : Config) (f : ModelCfg -> ModelCfg) : Config :=
  mkConfig (c_id c) (c_system c) (f (c_model c)) (c_trainer c)
    (c_vocab_size c) (c_block_size c).

Definition set_c_vocab_size (c : Config) (v : nat) : Config :=
  mkConfig (c_id c) (c_system c) (c_model c) (c_trainer c) (Some v)
    (c_block_size c).

Definition set_c_block_size (c : Config) (v : nat) : Config :=
  mkConfig (c_id c) (c_system c) (c_model c) (c_trainer c) (c_vocab_size c)
    (Some v).

(* ------------------------------------------------------------------ *)
(** * Models, trainers and the collaborating modules *)

(** The classes [Feedforward], [GPT] and [Trainer] live in model.py, gpt.py
    and trainer.py. An object of one of them is represented by its identity
    and the arguments its constructor received. *)
Inductive ModelArgs : Type :=
| FeedforwardArgs (mc : ModelCfg)
| GPTArgs (c : Config).

Record Model : Type := mkModel { model_id : nat; model_args : ModelArgs }.

Record Trainer : Type := mkTrainer {
  tr_config : TrainerCfg;
  tr_model : Model;
  tr_train_dataset : CharDataset;
  tr_val_dataset : Tensor * Tensor }.

(** What [main.py] takes from the collaborating modules: the two default
    model profiles, and the outcome [(val_loss, val_perplexity)] of
    [trainer.run()]. The constructors of the models and of the trainer, and
    [trainer.run()] with the callback it invokes, are taken to return
    normally. *)
Record Env : Type := mkEnv {
  Feedforward_get_default_config : ModelCfg;
  GPT_get_default_config : ModelCfg;
  Trainer_run : Trainer -> float * float }.

(* ------------------------------------------------------------------ *)
(** * Effects *)

Inductive event : Type :=
| EvPrintConfig (c : Config)
| EvSetupLogging (c : Config) (run_idx : nat)
| EvSetSeed (s : Z)
| EvNewModel (m : Model)
| EvNewTrainer (t : Trainer)
| EvSetCallback (name : string)
| EvRun (t : Trainer) (val_loss val_perplexity : float)
| EvPrintSummary (best_perplexity best_loss : float)
    (lr : float) (hidden_dim n_embd : Z).

Record World : Type := mkWorld { next_id : nat; log : list event }.

Definition M (A : Type) : Type := World -> World * (exn + A).

Definition ret {A : Type} (a : A) : M A := fun w => (w, inr a).

Definition bind {A B : Type} (c : M A) (k : A -> M B) : M B :=
  fun w =>
    match c w with
    | (w', inl e) => (w', inl e)
    | (w', inr a) => k a w'
    end.

Definition raise {A : Type} (e : exn) : M A := fun w => (w, inl e).

Definition lift {A : Type} (r : exn + A) : M A := fun w => (w, r).

Definition emit (ev : event) : M unit :=
  fun w => (mkWorld (next_id w) (log w ++ [ev]), inr tt).

Definition fresh_id : M nat :=
  fun w => (mkWorld (S (next_id w)) (log w), inr (next_id w)).

Declare Scope py_scope.
Delimit Scope py_scope with py.
Notation "x <- c ;; k" := (bind c (fun x => k))
  (at level 61, c at next level, right associativity) : py_scope.
Notation "' pat <- c ;; k" := (bind c (fun x => let pat := x in k))
  (at level 61, pat pattern, c at next level, right associativity) : py_scope.
Notation "c ;; k" := (bind c (fun _ => k))
  (at level 61, right associativity) : py_scope.
Local Open Scope py_scope.

(* ------------------------------------------------------------------ *)
(** * The configuration profiles *)

Definition ff_trainer_cfg : TrainerCfg :=
  mkTrainerCfg "auto" 4 50000 64 PyFloat.f_5e_4
    (PyFloat.f_0_9, PyFloat.f_0_95) PyFloat.f_0_1 PyFloat.f_1_0 5 2000
    PyFloat.f_0_05.

Definition gpt_trainer_cfg : TrainerCfg :=
  mkTrainerCfg "auto" 4 50000 64 PyFloat.f_5e_4
    (PyFloat.f_0_9, PyFloat.f_0_95) PyFloat.f_0_1 PyFloat.f_1_0 5 1000
    PyFloat.f_0_05.

Definition get_ff_config (E : Env) : M Config :=
  id <- fresh_id ;;
  ret (mkConfig id (mkSystemCfg 3407 "./out/chargpt")
         (Feedforward_get_default_config E) ff_trainer_cfg None None).

Definition get_gpt_config (E : Env) : M Config :=
  id <- fresh_id ;;
  ret (mkConfig id (mkSystemCfg 3407 "./out/chargpt")
         (set_model_type (GPT_get_default_config E) "gpt-nano")
         gpt_trainer_cfg None None).

(* ------------------------------------------------------------------ *)
(** * One training run *)

(** [Feedforward(config.model)] and [GPT(config)] *)
Definition Feedforward (mc : ModelCfg) : M Model :=
  id <- fresh_id ;;
  let m := mkModel id (FeedforwardArgs mc) in
  emit (EvNewModel m) ;;
  ret m.

Definition GPT (c : Config) : M Model :=
  id <- fresh_id ;;
  let m := mkModel id (GPTArgs c) in
  emit (EvNewModel m) ;;
  ret m.

(** [Trainer(config.trainer, model, train_dataset, val_dataset=val_dataset)] *)
Definition Trainer_init (tc : TrainerCfg) (m : Model)
  (train_dataset : CharDataset) (val_dataset : Tensor * Tensor) : M Trainer :=
  let t := mkTrainer tc m train_dataset val_dataset in
  emit (EvNewTrainer t) ;;
  ret t.

(** [trainer.run()] *)
Definition run (E : Env) (t : Trainer) : M (float * float) :=
  let '(val_loss, val_perplexity) := Trainer_run E t in
  emit (EvRun t val_loss val_perplexity) ;;
  ret (val_loss, val_perplexity).

(** [train(config, train_dataset, val_dataset, run_idx)]. When the model type
    is neither "feedforward" nor starts with "gpt", no branch binds [model]
    and its use in the [Trainer] call raises. The iteration callback runs
    inside [trainer.run()]; here only its registration is recorded. *)
Definition train (E : Env) (config : Config) (train_dataset : CharDataset)
  (val_dataset : Tensor * Tensor) (run_idx : nat)
  : M (Model * float * float) :=
  emit (EvPrintConfig config) ;;
  emit (EvSetupLogging config run_idx) ;;
  emit (EvSetSeed (seed (c_system config))) ;;
  let config :=
    with_model config
      (fun mc => set_m_vocab_size mc (get_vocab_size train_dataset)) in
  let config :=
    with_model config
      (fun mc => set_m_block_size mc (get_block_size train_dataset)) in
  model <-
    (if String.eqb (model_type (c_model config)) "feedforward"
     then Feedforward (c_model config)
     else if String.prefix "gpt" (model_type (c_model config))
     then
       let config := set_c_vocab_size config (get_vocab_size train_dataset) in
       let config := set_c_block_size config (get_block_size train_dataset) in
       GPT config
     else raise UnboundLocalError) ;;
  trainer <- Trainer_init (c_trainer config) model train_dataset val_dataset ;;
  emit (EvSetCallback "on_batch_end") ;;
  ' (val_loss, val_perplexity) <- run E trainer ;;
  ret (model, val_loss, val_perplexity).

(* ------------------------------------------------------------------ *)
(** * The sweep *)

(** [--model], restricted by [argparse] to its two choices. *)
Inductive model_choice : Type := arg_feedforward | arg_gpt.

(** One grid point [(learning_rate, hidden_dim, n_embd)]. *)
Definition Hyp : Type := (float * Z * Z)%type.

(** [itertools.product(a, b, c)]: the last axis varies fastest. *)
Definition product {A B C : Type} (a : list A) (b : list B) (c : list C)
  : list (A * B * C) :=
  flat_map (fun x => flat_map (fun y => map (fun z => (x, y, z)) c) b) a.

Definition enumerate {A : Type} (l : list A) : list (nat * A) :=
  combine (seq 0 (length l)) l.

Definition learning_rates : list float := [PyFloat.f_2e_4; PyFloat.f_3e_4].
Definition hidden_dims : list Z := [200; 300; 400]%Z.
Definition n_embds : list Z := [48; 96]%Z.

Definition hyperparameters_list : list Hyp :=
  product learning_rates hidden_dims n_embds.

(** The variables of the [__main__] block that the loop updates: the four
    [best_*] variables, and the loop variables [learning_rate], [hidden_dim],
    [n_embd], unbound until the first iteration. *)
Record SweepState : Type := mkSweepState {
  best_model : option Model;
  best_val_loss : float;
  best_val_perplexity : float;
  best_hyps : option Hyp;
  loop_vars : option Hyp }.

Definition sweep_init : SweepState :=
  mkSweepState None PyFloat.inf PyFloat.inf None None.

(** The [if val_loss < best_val_loss] statement. *)
Definition update_best (st : SweepState) (hyp : Hyp)
  (r : Model * float * float) : SweepState :=
  let '(model, val_loss, val_perplexity) := r in
  if PyFloat.ltb val_loss (best_val_loss st)
  then mkSweepState (Some model) val_loss val_perplexity (Some hyp) (Some hyp)
  else mkSweepState (best_model st) (best_val_loss st)
         (best_val_perplexity st) (best_hyps st) (Some hyp).

Definition sweep_body (E : Env) (args_model : model_choice)
  (train_dataset : CharDataset) (val_dataset : Tensor * Tensor)
  (st : SweepState) (it : nat * Hyp) : M SweepState :=
  let '(run_idx, (learning_rate, hidden_dim, n_embd)) := it in
  config <-
    match args_model with
    | arg_feedforward => get_ff_config E
    | arg_gpt => get_gpt_config E
    end ;;
  let config :=
    with_model config (fun mc => set_m_learning_rate mc learning_rate) in
  let config := with_model config (fun mc => set_m_hidden_dim mc hidden_dim) in
  let config := with_model config (fun mc => set_m_n_embd mc n_embd) in
  r <- train E config train_dataset val_dataset run_idx ;;
  ret (update_best st (learning_rate, hidden_dim, n_embd) r).

Fixpoint sweep_loop (E : Env) (args_model : model_choice)
  (train_dataset : CharDataset) (val_dataset : Tensor * Tensor)
  (its : list (nat * Hyp)) (st : SweepState) : M SweepState :=
  match its with
  | [] => ret st
  | it :: rest =>
      st' <- sweep_body E args_model train_dataset val_dataset st it ;;
      sweep_loop E args_model train_dataset val_dataset rest st'
  end.

(** [int(len(data) * ratio)] with [ratio = .7] *)
Definition split_index (len : nat) : exn + Z :=
  PyFloat.to_int (PyFloat.mul (PyFloat.of_int (Z.of_nat len)) PyFloat.f_0_7).

(** Whether [int(n * 0.7)] is defined and is [7 * n / 10] or, on a
    multiple of ten, one less. *)
Definition split_index_in_bounds (n : nat) : bool :=
  match split_index n with
  | inr k =>
      ((7 * Z.of_nat n - 10 <=? 10 * k) && (10 * k <=? 7 * Z.of_nat n))%Z
  | inl _ => false
  end.

(** The [__main__] block, from the corpus text [data] read from the file and
    the parsed [--model] choice; its value is the final state of the sweep
    variables. *)
Definition main (E : Env) (args_model : model_choice) (data : list ascii)
  : M SweepState :=
  let data_config := mkDataConfig 10 in
  split_idx <- lift (split_index (length data)) ;;
  let train_dataset :=
    CharDataset_init data_config (py_slice_to data split_idx) in
  val_data <- lift (stoi_all train_dataset (py_slice_from data split_idx)) ;;
  val_dataset <- lift (get_val_dataset data_config val_data) ;;
  st <- sweep_loop E args_model train_dataset val_dataset
          (enumerate hyperparameters_list) sweep_init ;;
  match loop_vars st with
  | None => raise NameError
  | Some (learning_rate, hidden_dim, n_embd) =>
      emit (EvPrintSummary (best_val_perplexity st) (best_val_loss st)
              learning_rate hidden_dim n_embd) ;;
      ret st
  end.

Definition world0 : World := mkWorld 0 [].

(* ------------------------------------------------------------------ *)
(** * Reading the event log *)

Definition new_models (l : list event) : list Model :=
  flat_map (fun ev => match ev with EvNewModel m => [m] | _ => [] end) l.

Definition new_trainers (l : list event) : list Trainer :=
  flat_map (fun ev => match ev with EvNewTrainer t => [t] | _ => [] end) l.

(** The runs, each with the outcome it returned. *)
Definition runs (l : list event) : list (Trainer * float * float) :=
  flat_map
    (fun ev => match ev with EvRun t vl vp => [(t, vl, vp)] | _ => [] end) l.

(** The [train] invocations, as the [(config, run_idx)] handed to
    [setup_logging] on entry. *)
Definition train_calls (l : list event) : list (Config * nat) :=
  flat_map
    (fun ev => match ev with EvSetupLogging c i => [(c, i)] | _ => [] end) l.

Definition summaries (l : list event) : list (float * float * Hyp) :=
  flat_map
    (fun ev =>
       match ev with
       | EvPrintSummary p v lr hd ne => [(p, v, (lr, hd, ne))]
       | _ => []
       end) l.

(** The vocabulary size and block size carried by the configuration a model
    was constructed from: [config.model] for the feedforward class, the root
    node for the gpt class. *)
Definition args_vocab_size (a : ModelArgs) : option nat :=
  match a with
  | FeedforwardArgs mc => m_vocab_size mc
  | GPTArgs c => c_vocab_size c
  end.

Definition args_block_size (a : ModelArgs) : option nat :=
  match a with
  | FeedforwardArgs mc => m_block_size mc
  | GPTArgs c => c_block_size c
  end.

(** The hyperparameters that the sweep wrote into a model's configuration. *)
Definition args_model_cfg (a : ModelArgs) : ModelCfg :=
  match a with
  | FeedforwardArgs mc => mc
  | GPTArgs c => c_model c
  end.

(* ------------------------------------------------------------------ *)
(** * One sweep iteration, described by its outcome

    The functions below state, without the plumbing of [M], what one
    iteration of the sweep constructs and logs when it starts with the
    allocation counter at [id]. The lemmas [sweep_body_known] and
    [sweep_loop_known] show that [sweep_body] and [sweep_loop] compute
    exactly this. *)

(** The model types for which [train] has a branch. *)
Definition model_type_known (mt : string) : bool :=
  String.eqb mt "feedforward" || String.prefix "gpt" mt.

(** The profile that [get_ff_config] or [get_gpt_config] returns. *)
Definition base_config (E : Env) (a : model_choice) (id : nat) : Config :=
  match a with
  | arg_feedforward =>
      mkConfig id (mkSystemCfg 3407 "./out/chargpt")
        (Feedforward_get_default_config E) ff_trainer_cfg None None
  | arg_gpt =>
      mkConfig id (mkSystemCfg 3407 "./out/chargpt")
        (set_model_type (GPT_get_default_config E) "gpt-nano")
        gpt_trainer_cfg None None
  end.

(** The profile after the three assignments of the loop body. *)
Definition swept_config (E : Env) (a : model_choice) (id : nat) (hyp : Hyp)
  : Config :=
  let '(learning_rate, hidden_dim, n_embd) := hyp in
  with_model
    (with_model
       (with_model (base_config E a id)
          (fun mc => set_m_learning_rate mc learning_rate))
       (fun mc => set_m_hidden_dim mc hidden_dim))
    (fun mc => set_m_n_embd mc n_embd).

(** The configuration after the two assignments at the top of [train]. *)
Definition injected_config (c : Config) (ds : CharDataset) : Config :=
  with_model
    (with_model c (fun mc => set_m_vocab_size mc (get_vocab_size ds)))
    (fun mc => set_m_block_size mc (get_block_size ds)).

(** The constructor arguments of the model that [train] builds. *)
Definition train_model_args (c : Config) (ds : CharDataset) : ModelArgs :=
  if String.eqb (model_type (c_model c)) "feedforward"
  then FeedforwardArgs (c_model (injected_config c ds))
  else GPTArgs
         (set_c_block_size
            (set_c_vocab_size (injected_config c ds) (get_vocab_size ds))
            (get_block_size ds)).

Definition train_model (c : Config) (ds : CharDataset) (id : nat) : Model :=
  mkModel id (train_model_args c ds).

Definition train_trainer (c : Config) (ds : CharDataset)
  (val : Tensor * Tensor) (id : nat) : Trainer :=
  mkTrainer (c_trainer c) (train_model c ds id) ds val.

Definition train_result (E : Env) (c : Config) (ds : CharDataset)
  (val : Tensor * Tensor) (id : nat) : Model * float * float :=
  (train_model c ds id,
   fst (Trainer_run E (train_trainer c ds val id)),
   snd (Trainer_run E (train_trainer c ds val id))).

Definition train_events (E : Env) (c : Config) (ds : CharDataset)
  (val : Tensor * Tensor) (run_idx id : nat) : list event :=
  [ EvPrintConfig c; EvSetupLogging c run_idx; EvSetSeed (seed (c_system c));
    EvNewModel (train_model c ds id);
    EvNewTrainer (train_trainer c ds val id);
    EvSetCallback "on_batch_end";
    EvRun (train_trainer c ds val id)
      (fst (Trainer_run E (train_trainer c ds val id)))
      (snd (Trainer_run E (train_trainer c ds val id))) ].

(** The events and the results of the iterations over [its], the first one
    starting with the allocation counter at [id]: every iteration allocates
    a configuration and then a model. *)
Fixpoint sweep_events (E : Env) (a : model_choice) (ds : CharDataset)
  (val : Tensor * Tensor) (id : nat) (its : list (nat * Hyp)) : list event :=
  match its with
  | [] => []
  | (run_idx, hyp) :: rest =>
      train_events E (swept_config E a id hyp) ds val run_idx (S id)
      ++ sweep_events E a ds val (S (S id)) rest
  end.

Fixpoint sweep_results (E : Env) (a : model_choice) (ds : CharDataset)
  (val : Tensor * Tensor) (id : nat) (its : list (nat * Hyp))
  : list (Hyp * (Model * float * float)) :=
  match its with
  | [] => []
  | (run_idx, hyp) :: rest =>
      (hyp, train_result E (swept_config E a id hyp) ds val (S id))
      :: sweep_results E a ds val (S (S id)) rest
  end.

(** The selection over a list of finished runs. *)
Definition select_best (st : SweepState)
  (results : list (Hyp * (Model * float * float))) : SweepState :=
  fold_left (fun st hr => update_best st (fst hr) (snd hr)) results st.

(** The validation loss of a finished run. *)
Definition result_loss (hr : Hyp * (Model * float * float)) : float :=
  snd (fst (snd hr)).

(** The grid point written into a configuration by the loop body. *)
Definition config_hyp (c : Config) : option Hyp :=
  match m_learning_rate (c_model c), m_hidden_dim (c_model c),
        m_n_embd (c_model c) with
  | Some lr, Some hd, Some ne => Some (lr, hd, ne)
  | _, _, _ => None
  end.

(* ------------------------------------------------------------------ *)
(** * Sample inputs *)

Definition sample_ff_default : ModelCfg :=
  mkModelCfg "feedforward" None None None None None.

Definition sample_gpt_default : ModelCfg :=
  mkModelCfg "gpt" None None None None None.

(** A trainer whose outcome is read from a table by the position of the run:
    the sweep allocates a configuration and then a model in every run, so
    the model of run [i] has identity [2 * i + 1]. *)
Definition table_run (table : list (float * float)) (t : Trainer)
  : float * float :=
  nth (Nat.div2 (model_id (tr_model t))) table (PyFloat.inf, PyFloat.inf).

(** Run 0 has the lowest loss. *)
Definition losses_first_best : list (float * float) :=
  (PyFloat.f_1_5, PyFloat.f_4_0) ::
  repeat (PyFloat.f_2_25, PyFloat.f_3_0) 11.

(** Runs 2 and 7 share the lowest loss, with different perplexities. *)
Definition losses_tie : list (float * float) :=
  [ (PyFloat.f_3_0, PyFloat.f_4_0); (PyFloat.f_2_25, PyFloat.f_4_0);
    (PyFloat.f_1_5, PyFloat.f_2_25); (PyFloat.f_3_0, PyFloat.f_4_0);
    (PyFloat.f_3_0, PyFloat.f_4_0); (PyFloat.f_2_25, PyFloat.f_4_0);
    (PyFloat.f_4_0, PyFloat.f_4_0); (PyFloat.f_1_5, PyFloat.f_3_0);
    (PyFloat.f_3_0, PyFloat.f_4_0); (PyFloat.f_2_25, PyFloat.f_4_0);
    (PyFloat.f_3_0, PyFloat.f_4_0); (PyFloat.f_4_0, PyFloat.f_4_0) ].

Definition env_first_best : Env :=
  mkEnv sample_ff_default sample_gpt_default (table_run losses_first_best).

Definition env_tie : Env :=
  mkEnv sample_ff_default sample_gpt_default (table_run losses_tie).

(** Forty characters over "a", "b", "c": the first 28 train, the last 12
    validate. *)
Definition corpus_abc : list ascii :=
  list_ascii_of_string "abcabcabcabcabcabcabcabcabcabcabcabcabca".

(** The validation part contains "z", which the training part lacks. *)
Definition corpus_unseen : list ascii :=
  list_ascii_of_string "abcabcabcabcabcabcabcabcabcabcabzabcabca".

(** Three stand-in models for [pick_best], named by a number, with the score
    that calling each of them returns: the second and the third share the
    highest score. *)
Definition sample_call (m : nat) (inputs targets : Tensor) (loss_fn : unit)
  : unit * float :=
  (tt, nth m [PyFloat.f_1_5; PyFloat.f_3_0; PyFloat.f_3_0] PyFloat.f_1_0).

Definition empty_tensor : Tensor := mkTensor [0] [].

(** A feedforward profile whose model type [train] has no branch for. *)
Definition env_unknown_type : Env :=
  mkEnv (mkModelCfg "mlp" None None None None None) sample_gpt_default
    (table_run losses_tie).

(** Twenty characters: the first 14 train, the last 6 validate, fewer than
    the block size of 10. *)
Definition corpus_short : list ascii :=
  list_ascii_of_string "abcabcabcabcabcabcab".

(** Every run returns an infinite loss. *)
Definition env_all_inf : Env :=
  mkEnv sample_ff_default sample_gpt_default
    (fun _ => (PyFloat.inf, PyFloat.inf)).



(** As [losses_tie], with run 1 returning NaN. *)
Definition losses_nan : list (float * float) :=
  [ (PyFloat.f_3_0, PyFloat.f_4_0); (S754_nan, S754_nan);
    (PyFloat.f_1_5, PyFloat.f_2_25); (PyFloat.f_3_0, PyFloat.f_4_0);
    (PyFloat.f_3_0, PyFloat.f_4_0); (PyFloat.f_2_25, PyFloat.f_4_0);
    (PyFloat.f_4_0, PyFloat.f_4_0); (PyFloat.f_1_5, PyFloat.f_3_0);
    (PyFloat.f_3_0, PyFloat.f_4_0); (PyFloat.f_2_25, PyFloat.f_4_0);
    (PyFloat.f_3_0, PyFloat.f_4_0); (PyFloat.f_4_0, PyFloat.f_4_0) ].

Definition env_nan : Env :=
  mkEnv sample_ff_default sample_gpt_default (table_run losses_nan).

Unset Implicit Arguments.

(* ------------------------------------------------------------------ *)
(** * Facts about the embedding *)

Lemma SFcompare_swap (a b : float) :
  SFcompare b a = option_map CompOpp (SFcompare a b).
Proof.
  destruct a as [sa|sa| |sa ma ea], b as [sb|sb| |sb mb eb]; simpl;
    try reflexivity;
    try (destruct sa; reflexivity); try (destruct sb; reflexivity);
    try (destruct sa, sb; reflexivity).
  destruct sa, sb; simpl; try reflexivity.
  - rewrite (Z.compare_antisym ea eb).
    destruct (ea ?= eb)%Z eqn:He; simpl; try reflexivity.
    f_equal. f_equal. apply (Pos.compare_antisym ma mb).
  - rewrite (Z.compare_antisym ea eb).
    destruct (ea ?= eb)%Z eqn:He; simpl; try reflexivity.
    f_equal. apply (Pos.compare_antisym ma mb).
Qed.

Lemma ltb_not_nan_l (a b : float) :
  PyFloat.ltb a b = true -> PyFloat.is_nan a = false.
Proof. destruct a, b; simpl; try reflexivity; discriminate. Qed.

Lemma pick_best_scores_map (ModelT DataT LossFn Logits : Type)
  (call : ModelT -> DataT -> DataT -> LossFn -> Logits * float)
  (inputs targets : DataT) (loss_fn : LossFn)
  (models : list ModelT) (acc : list float) :
  pick_best_scores call models inputs targets loss_fn acc
  = acc ++ map (fun m => snd (call m inputs targets loss_fn)) models.
Proof.
  revert acc. induction models as [|m models IH]; intros acc; simpl.
  - now rewrite app_nil_r.
  - rewrite IH, <- app_assoc. reflexivity.
Qed.

(* ------------------------------------------------------------------ *)
(** * The order that [torch.argmax] scans by *)







Lemma get_val_dataset_loop_map (bs : nat) (val_data : list nat)
  (idxs : list nat) (inputs targets : list (list nat)) :
  get_val_dataset_loop bs val_data idxs inputs targets
  = (inputs ++ map (fun idx => py_slice val_data idx (idx + bs)) idxs,
     targets ++ map (fun idx => py_slice val_data (idx + 1) (idx + bs + 1)) idxs).
Proof.
  revert inputs targets.
  induction idxs as [|idx idxs IH]; intros inputs targets; simpl.
  - now rewrite !app_nil_r.
  - rewrite IH, <- !app_assoc. reflexivity.
Qed.

Lemma py_slice_length (A : Type) (l : list A) (a b : nat) :
  b <= length l -> length (py_slice l a b) = b - a.
Proof.
  intros H. unfold py_slice. rewrite length_firstn, length_skipn. lia.
Qed.

Lemma py_slice_nth_error (A : Type) (l : list A) (a b i : nat) :
  i < b - a -> nth_error (py_slice l a b) i = nth_error l (a + i).
Proof.
  intros H. unfold py_slice.
  rewrite nth_error_firstn.
  destruct (Nat.ltb_spec i (b - a)); [|lia].
  apply nth_error_skipn.
Qed.

Lemma torch_tensor_uniform (k : nat) (rs : list (list nat)) :
  rs <> [] -> (forall r, In r rs -> length r = k) ->
  torch_tensor rs = inr (mkTensor [length rs; k] rs).
Proof.
  intros Hne Hall. destruct rs as [|r rest]; [congruence|].
  unfold torch_tensor.
  assert (Hr : length r = k) by (apply Hall; now left).
  replace (forallb (fun r' => length r' =? length r) rest) with true.
  - now rewrite Hr.
  - symmetry. apply forallb_forall. intros r' Hr'.
    apply Nat.eqb_eq. rewrite Hr. apply Hall. now right.
Qed.

Lemma get_val_dataset_empty (data_config : DataConfig) (val_data : list nat) :
  length val_data <= block_size data_config ->
  get_val_dataset data_config val_data
  = inr (mkTensor [0] [], mkTensor [0] []).
Proof.
  intros H. unfold get_val_dataset.
  replace (length val_data - block_size data_config) with 0 by lia.
  reflexivity.
Qed.

Lemma input_window_length (val_data : list nat) (bs idx : nat) :
  idx < length val_data - bs -> length (input_window val_data bs idx) = bs.
Proof.
  intros H. unfold input_window. rewrite py_slice_length; lia.
Qed.

Lemma target_window_length (val_data : list nat) (bs idx : nat) :
  idx < length val_data - bs -> length (target_window val_data bs idx) = bs.
Proof.
  intros H. unfold target_window. rewrite py_slice_length; lia.
Qed.

Lemma get_val_dataset_known (data_config : DataConfig) (val_data : list nat) :
  block_size data_config < length val_data ->
  get_val_dataset data_config val_data
  = inr (mkTensor [length val_data - block_size data_config;
                   block_size data_config]
           (map (input_window val_data (block_size data_config))
              (seq 0 (length val_data - block_size data_config))),
         mkTensor [length val_data - block_size data_config;
                   block_size data_config]
           (map (target_window val_data (block_size data_config))
              (seq 0 (length val_data - block_size data_config)))).
Proof.
  intros Hlen.
  set (bs := block_size data_config). set (n := length val_data - bs).
  assert (Hn : 0 < n) by (unfold n, bs; lia).
  unfold get_val_dataset. fold bs. fold n.
  rewrite get_val_dataset_loop_map. simpl app.
  change (fun idx => py_slice val_data idx (idx + bs))
    with (input_window val_data bs).
  change (fun idx => py_slice val_data (idx + 1) (idx + bs + 1))
    with (target_window val_data bs).
  rewrite (torch_tensor_uniform bs), (torch_tensor_uniform bs).
  - now rewrite !length_map, length_seq.
  - destruct n; [lia|]. simpl. discriminate.
  - intros r Hr. apply in_map_iff in Hr. destruct Hr as (idx & <- & Hidx).
    apply in_seq in Hidx. apply target_window_length. fold bs. fold n. lia.
  - destruct n; [lia|]. simpl. discriminate.
  - intros r Hr. apply in_map_iff in Hr. destruct Hr as (idx & <- & Hidx).
    apply in_seq in Hidx. apply input_window_length. fold bs. fold n. lia.
Qed.

Lemma get_val_dataset_total (data_config : DataConfig) (val_data : list nat) :
  exists val_dataset, get_val_dataset data_config val_data = inr val_dataset.
Proof.
  destruct (Nat.le_gt_cases (length val_data) (block_size data_config)) as [H|H].
  - eexists. now apply get_val_dataset_empty.
  - eexists. now apply get_val_dataset_known.
Qed.

Ltac run_monad :=
  unfold bind, ret, emit, fresh_id, raise, lift; simpl.

Lemma train_known (E : Env) (c : Config) (ds : CharDataset)
  (val : Tensor * Tensor) (run_idx : nat) (w : World) :
  model_type_known (model_type (c_model c)) = true ->
  train E c ds val run_idx w
  = (mkWorld (S (next_id w))
       (log w ++ train_events E c ds val run_idx (next_id w)),
     inr (train_result E c ds val (next_id w))).
Proof.
  unfold model_type_known. intros Hk.
  unfold train, train_events, train_result, train_trainer, train_model,
    train_model_args, Feedforward, GPT, Trainer_init, run.
  run_monad.
  destruct (String.eqb (model_type (c_model c)) "feedforward") eqn:Hff.
  - simpl.
    destruct (Trainer_run E _) as [vl vp] eqn:Hrun. simpl.
    repeat rewrite <- app_assoc. simpl. reflexivity.
  - simpl in Hk. rewrite Hk. simpl.
    destruct (Trainer_run E _) as [vl vp] eqn:Hrun. simpl.
    repeat rewrite <- app_assoc. simpl. reflexivity.
Qed.

Lemma train_unknown (E : Env) (c : Config) (ds : CharDataset)
  (val : Tensor * Tensor) (run_idx : nat) (w : World) :
  model_type_known (model_type (c_model c)) = false ->
  snd (train E c ds val run_idx w) = inl UnboundLocalError
  /\ new_models (log (fst (train E c ds val run_idx w))) = new_models (log w).
Proof.
  unfold model_type_known. intros Hk.
  apply orb_false_iff in Hk. destruct Hk as [Hff Hgpt].
  unfold train. run_monad. rewrite Hff, Hgpt. simpl. split; [reflexivity|].
  unfold new_models. rewrite !flat_map_app. simpl. now rewrite !app_nil_r.
Qed.

Lemma swept_config_model_type (E : Env) (a : model_choice) (id : nat) (hyp : Hyp) :
  model_type (c_model (swept_config E a id hyp))
  = model_type (c_model (base_config E a 0)).
Proof. destruct hyp as [[lr hd] ne], a; reflexivity. Qed.

(** The model type that the sweep hands to [train]. *)
Lemma sweep_body_known (E : Env) (a : model_choice) (ds : CharDataset)
  (val : Tensor * Tensor) (st : SweepState) (run_idx : nat) (hyp : Hyp)
  (w : World) :
  model_type_known (model_type (c_model (base_config E a 0))) = true ->
  sweep_body E a ds val st (run_idx, hyp) w
  = (mkWorld (S (S (next_id w)))
       (log w
        ++ train_events E (swept_config E a (next_id w) hyp) ds val run_idx
             (S (next_id w))),
     inr (update_best st hyp
            (train_result E (swept_config E a (next_id w) hyp) ds val
               (S (next_id w))))).
Proof.
  intros Hk. destruct hyp as [[lr hd] ne].
  unfold sweep_body. unfold bind at 1.
  assert (Hcfg :
    (match a with
     | arg_feedforward => get_ff_config E
     | arg_gpt => get_gpt_config E
     end) w = (mkWorld (S (next_id w)) (log w), inr (base_config E a (next_id w)))).
  { destruct a; reflexivity. }
  rewrite Hcfg. unfold bind.
  change (with_model
            (with_model
               (with_model (base_config E a (next_id w))
                  (fun mc => set_m_learning_rate mc lr))
               (fun mc => set_m_hidden_dim mc hd))
            (fun mc => set_m_n_embd mc ne))
    with (swept_config E a (next_id w) (lr, hd, ne)).
  rewrite train_known.
  - reflexivity.
  - now rewrite swept_config_model_type.
Qed.

Lemma sweep_loop_known (E : Env) (a : model_choice) (ds : CharDataset)
  (val : Tensor * Tensor) (its : list (nat * Hyp)) :
  model_type_known (model_type (c_model (base_config E a 0))) = true ->
  forall (st : SweepState) (w : World),
    sweep_loop E a ds val its st w
    = (mkWorld (next_id w + 2 * length its)
         (log w ++ sweep_events E a ds val (next_id w) its),
       inr (select_best st (sweep_results E a ds val (next_id w) its))).
Proof.
  intros Hk. induction its as [|[run_idx hyp] rest IH]; intros st w.
  - simpl. unfold ret. rewrite app_nil_r, Nat.add_0_r. now destruct w.
  - cbn [sweep_loop]. unfold bind at 1. rewrite sweep_body_known by exact Hk.
    rewrite IH. simpl. f_equal. f_equal.
    + lia.
    + now rewrite <- app_assoc.
Qed.

Lemma sweep_body_unknown (E : Env) (a : model_choice) (ds : CharDataset)
  (val : Tensor * Tensor) (st : SweepState) (it : nat * Hyp) (w : World) :
  model_type_known (model_type (c_model (base_config E a 0))) = false ->
  snd (sweep_body E a ds val st it w) = inl UnboundLocalError.
Proof.
  intros Hk. destruct it as [run_idx [[lr hd] ne]].
  unfold sweep_body. unfold bind at 1.
  assert (Hcfg :
    (match a with
     | arg_feedforward => get_ff_config E
     | arg_gpt => get_gpt_config E
     end) w = (mkWorld (S (next_id w)) (log w), inr (base_config E a (next_id w)))).
  { destruct a; reflexivity. }
  rewrite Hcfg. unfold bind.
  change (with_model
            (with_model
               (with_model (base_config E a (next_id w))
                  (fun mc => set_m_learning_rate mc lr))
               (fun mc => set_m_hidden_dim mc hd))
            (fun mc => set_m_n_embd mc ne))
    with (swept_config E a (next_id w) (lr, hd, ne)).
  match goal with |- context [train ?e ?c ?d ?v ?i ?w0] =>
    destruct (train_unknown e c d v i w0) as [Hsnd _];
    [ now rewrite swept_config_model_type
    | destruct (train e c d v i w0) as [w2 [e2|r2]]; simpl in Hsnd ]
  end.
  - simpl. now inversion Hsnd.
  - discriminate.
Qed.

Lemma sweep_loop_unknown (E : Env) (a : model_choice) (ds : CharDataset)
  (val : Tensor * Tensor) (its : list (nat * Hyp)) (st : SweepState)
  (w : World) :
  its <> [] ->
  model_type_known (model_type (c_model (base_config E a 0))) = false ->
  snd (sweep_loop E a ds val its st w) = inl UnboundLocalError.
Proof.
  intros Hne Hk. destruct its as [|it rest]; [congruence|].
  cbn [sweep_loop]. unfold bind.
  pose proof (sweep_body_unknown E a ds val st it w Hk) as Hb.
  destruct (sweep_body E a ds val st it w) as [w2 [e2|r2]]; simpl in Hb.
  - simpl. now inversion Hb.
  - discriminate.
Qed.

Lemma update_best_loop_vars (st : SweepState) (hyp : Hyp)
  (r : Model * float * float) :
  loop_vars (update_best st hyp r) = Some hyp.
Proof.
  destruct r as [[m vl] vp]. unfold update_best.
  destruct (PyFloat.ltb vl (best_val_loss st)); reflexivity.
Qed.

Lemma select_best_loop_vars (results : list (Hyp * (Model * float * float)))
  (st : SweepState) :
  loop_vars (select_best st results)
  = fold_left (fun _ h => Some h) (map fst results) (loop_vars st).
Proof.
  revert st. induction results as [|[hyp r] results IH]; intros st.
  - reflexivity.
  - unfold select_best in *. simpl. rewrite IH, update_best_loop_vars.
    reflexivity.
Qed.

Lemma sweep_results_hyps (E : Env) (a : model_choice) (ds : CharDataset)
  (val : Tensor * Tensor) (its : list (nat * Hyp)) (id : nat) :
  map fst (sweep_results E a ds val id its) = map snd its.
Proof.
  revert id. induction its as [|[run_idx hyp] rest IH]; intros id; simpl.
  - reflexivity.
  - now rewrite IH.
Qed.



(** What the [__main__] block does once the corpus is split and mapped. *)
Lemma main_known (E : Env) (a : model_choice) (data : list ascii) (k : Z)
  (val_data : list nat) (val_dataset : Tensor * Tensor) :
  let ds := CharDataset_init (mkDataConfig 10) (py_slice_to data k) in
  let st := select_best sweep_init
              (sweep_results E a ds val_dataset 0
                 (enumerate hyperparameters_list)) in
  split_index (length data) = inr k ->
  stoi_all ds (py_slice_from data k) = inr val_data ->
  get_val_dataset (mkDataConfig 10) val_data = inr val_dataset ->
  model_type_known (model_type (c_model (base_config E a 0))) = true ->
  main E a data world0
  = (mkWorld 24
       (sweep_events E a ds val_dataset 0 (enumerate hyperparameters_list)
        ++ [EvPrintSummary (best_val_perplexity st) (best_val_loss st)
              PyFloat.f_3e_4 400 96]),
     inr st).
Proof.
  intros ds st Hk Hmap Hval Hmt.
  unfold main. unfold bind at 1. unfold lift at 1. rewrite Hk.
  unfold bind at 1. unfold lift at 1. fold ds. rewrite Hmap.
  unfold bind at 1. unfold lift at 1. rewrite Hval.
  unfold bind at 1. rewrite sweep_loop_known by exact Hmt.
  change (next_id world0) with 0. change (log world0) with (@nil event).
  fold st.
  assert (Hlv : loop_vars st = Some (PyFloat.f_3e_4, 400%Z, 96%Z)).
  { unfold st. rewrite select_best_loop_vars, sweep_results_hyps. reflexivity. }
  rewrite Hlv. unfold bind, emit, ret. simpl. reflexivity.
Qed.

Lemma main_inr_inv (E : Env) (a : model_choice) (data : list ascii)
  (w' : World) (st : SweepState) :
  main E a data world0 = (w', inr st) ->
  exists k val_data val_dataset,
    split_index (length data) = inr k
    /\ stoi_all (CharDataset_init (mkDataConfig 10) (py_slice_to data k))
         (py_slice_from data k) = inr val_data
    /\ get_val_dataset (mkDataConfig 10) val_data = inr val_dataset
    /\ model_type_known (model_type (c_model (base_config E a 0))) = true.
Proof.
  intros Hmain.
  destruct (split_index (length data)) as [e|k] eqn:Hk.
  { unfold main, bind, lift in Hmain. rewrite Hk in Hmain. discriminate. }
  destruct (stoi_all (CharDataset_init (mkDataConfig 10) (py_slice_to data k))
              (py_slice_from data k)) as [e|val_data] eqn:Hmap.
  { unfold main, bind, lift in Hmain. rewrite Hk, Hmap in Hmain. discriminate. }
  destruct (get_val_dataset (mkDataConfig 10) val_data) as [e|val_dataset] eqn:Hval.
  { unfold main, bind, lift in Hmain. rewrite Hk, Hmap, Hval in Hmain. discriminate. }
  exists k, val_data, val_dataset. repeat split; auto.
  destruct (model_type_known (model_type (c_model (base_config E a 0)))) eqn:Hmt;
    [reflexivity|].
  exfalso.
  unfold main in Hmain. unfold bind at 1 in Hmain. unfold lift at 1 in Hmain.
  rewrite Hk in Hmain.
  unfold bind at 1 in Hmain. unfold lift at 1 in Hmain. rewrite Hmap in Hmain.
  unfold bind at 1 in Hmain. unfold lift at 1 in Hmain. rewrite Hval in Hmain.
  unfold bind at 1 in Hmain.
  match type of Hmain with context [sweep_loop ?e ?a0 ?d ?v ?l ?s ?w0] =>
    pose proof (sweep_loop_unknown e a0 d v l s w0) as Hl;
    destruct (sweep_loop e a0 d v l s w0) as [w2 [e2|r2]]
  end.
  - discriminate.
  - simpl in Hl. assert (inr r2 = inl UnboundLocalError :> exn + SweepState).
    { apply Hl; [discriminate | exact Hmt]. }
    discriminate.
Qed.

Lemma pair_eq_inv (A B : Type) (a c : A) (b d : B) :
  (a, b) = (c, d) -> a = c /\ b = d.
Proof. intros H. now inversion H. Qed.

Lemma inr_eq_inv (A B : Type) (b d : B) :
  inr b = inr d :> A + B -> b = d.
Proof. intros H. now inversion H. Qed.

(** A completed [__main__] block: how the corpus was split and mapped, what
    was logged, and the final state of the sweep variables. *)
Lemma main_inr_known (E : Env) (a : model_choice) (data : list ascii)
  (w' : World) (st : SweepState) :
  main E a data world0 = (w', inr st) ->
  exists k val_data val_dataset,
    split_index (length data) = inr k
    /\ stoi_all (CharDataset_init (mkDataConfig 10) (py_slice_to data k))
         (py_slice_from data k) = inr val_data
    /\ get_val_dataset (mkDataConfig 10) val_data = inr val_dataset
    /\ model_type_known (model_type (c_model (base_config E a 0))) = true
    /\ st = select_best sweep_init
              (sweep_results E a
                 (CharDataset_init (mkDataConfig 10) (py_slice_to data k))
                 val_dataset 0 (enumerate hyperparameters_list))
    /\ log w'
       = sweep_events E a
           (CharDataset_init (mkDataConfig 10) (py_slice_to data k))
           val_dataset 0 (enumerate hyperparameters_list)
         ++ [EvPrintSummary (best_val_perplexity st) (best_val_loss st)
               PyFloat.f_3e_4 400 96].
Proof.
  intros Hmain.
  destruct (main_inr_inv E a data w' st Hmain)
    as (k & val_data & val_dataset & Hk & Hmap & Hval & Hmt).
  exists k, val_data, val_dataset.
  split; [exact Hk|]. split; [exact Hmap|]. split; [exact Hval|].
  split; [exact Hmt|].
  pose proof (main_known E a data k val_data val_dataset Hk Hmap Hval Hmt)
    as Hknown.
  cbv zeta in Hknown. rewrite Hmain in Hknown.
  apply pair_eq_inv in Hknown. destruct Hknown as [Hw Hst].
  apply inr_eq_inv in Hst. split; [exact Hst|].
  rewrite Hw, <- Hst. reflexivity.
Qed.

(* ------------------------------------------------------------------ *)
(** * The selection *)

Lemma select_best_app (st : SweepState)
  (l1 l2 : list (Hyp * (Model * float * float))) :
  select_best st (l1 ++ l2) = select_best (select_best st l1) l2.
Proof. unfold select_best. apply fold_left_app. Qed.

Lemma select_best_cons (st : SweepState) (hr : Hyp * (Model * float * float))
  (l : list (Hyp * (Model * float * float))) :
  select_best st (hr :: l) = select_best (update_best st (fst hr) (snd hr)) l.
Proof. reflexivity. Qed.

(** While every run seen so far either lost against [vl] or returned NaN,
    the best one lost against [vl]. *)
Lemma select_best_above (vl : float)
  (pre : list (Hyp * (Model * float * float))) :
  (forall hr, In hr pre ->
     PyFloat.ltb vl (result_loss hr) = true
     \/ PyFloat.is_nan (result_loss hr) = true) ->
  forall st,
    PyFloat.ltb vl (best_val_loss st) = true ->
    PyFloat.ltb vl (best_val_loss (select_best st pre)) = true.
Proof.
  induction pre as [|[hyp [[m l] p]] pre IH]; intros Hpre st Hst.
  - exact Hst.
  - rewrite select_best_cons. apply IH.
    + intros hr Hhr. apply Hpre. now right.
    + simpl. destruct (PyFloat.ltb l (best_val_loss st)) eqn:Hl; simpl.
      * destruct (Hpre (hyp, (m, l, p)) (or_introl eq_refl)) as [H|H];
          [exact H|].
        unfold result_loss in H. cbn [fst snd] in H.
        rewrite (ltb_not_nan_l _ _ Hl) in H. discriminate.
      * exact Hst.
Qed.

(** Runs that do not beat the retained loss leave the retained run alone. *)
Lemma select_best_keep (post : list (Hyp * (Model * float * float))) :
  forall st,
    (forall hr, In hr post ->
                PyFloat.ltb (result_loss hr) (best_val_loss st) = false) ->
    best_model (select_best st post) = best_model st
    /\ best_val_loss (select_best st post) = best_val_loss st
    /\ best_val_perplexity (select_best st post) = best_val_perplexity st
    /\ best_hyps (select_best st post) = best_hyps st.
Proof.
  induction post as [|[hyp [[m l] p]] post IH]; intros st Hpost.
  - repeat split.
  - rewrite select_best_cons.
    assert (Hl : PyFloat.ltb l (best_val_loss st) = false).
    { apply (Hpost (hyp, (m, l, p))). now left. }
    simpl fst. simpl snd. unfold update_best. rewrite Hl.
    match goal with |- context [select_best ?s post] =>
      destruct (IH s) as (H1 & H2 & H3 & H4)
    end.
    + intros hr Hhr. simpl. apply Hpost. now right.
    + rewrite H1, H2, H3, H4. repeat split.
Qed.

Lemma select_best_earliest_min
  (results : list (Hyp * (Model * float * float))) (st : SweepState)
  (i : nat) (hyp : Hyp) (m : Model) (vl vp : float) :
  nth_error results i = Some (hyp, (m, vl, vp)) ->
  PyFloat.ltb vl (best_val_loss st) = true ->
  (forall j hr, nth_error results j = Some hr ->
                PyFloat.ltb (result_loss hr) vl = false) ->
  (forall j hr, j < i -> nth_error results j = Some hr ->
                PyFloat.ltb vl (result_loss hr) = true
                \/ PyFloat.is_nan (result_loss hr) = true) ->
  best_model (select_best st results) = Some m
  /\ best_val_loss (select_best st results) = vl
  /\ best_val_perplexity (select_best st results) = vp
  /\ best_hyps (select_best st results) = Some hyp.
Proof.
  intros Hi Hst Hmin Hfirst.
  destruct (nth_error_split results i Hi) as (pre & post & Hsplit & Hlen).
  subst results. rewrite select_best_app, select_best_cons.
  assert (Hpre : PyFloat.ltb vl (best_val_loss (select_best st pre)) = true).
  { apply select_best_above; [|exact Hst].
    intros hr Hhr. destruct (In_nth_error _ _ Hhr) as (j & Hj).
    assert (Hjlt : j < length pre) by (apply nth_error_Some; congruence).
    apply (Hfirst j); [lia|]. now rewrite nth_error_app1. }
  simpl fst. simpl snd. unfold update_best at 1 2 3 4. rewrite Hpre.
  match goal with |- context [select_best ?s post] =>
    destruct (select_best_keep post s) as (H1 & H2 & H3 & H4)
  end.
  - intros hr Hhr. simpl.
    destruct (In_nth_error _ _ Hhr) as (j & Hj).
    apply (Hmin (length pre + S j)).
    rewrite nth_error_app2 by lia.
    replace (length pre + S j - length pre) with (S j) by lia. exact Hj.
  - rewrite H1, H2, H3, H4. repeat split.
Qed.

(* ------------------------------------------------------------------ *)
(** * Reading the log of a sweep *)

Lemma runs_app (l1 l2 : list event) : runs (l1 ++ l2) = runs l1 ++ runs l2.
Proof. apply flat_map_app. Qed.

Lemma new_models_app (l1 l2 : list event) :
  new_models (l1 ++ l2) = new_models l1 ++ new_models l2.
Proof. apply flat_map_app. Qed.

Lemma new_trainers_app (l1 l2 : list event) :
  new_trainers (l1 ++ l2) = new_trainers l1 ++ new_trainers l2.
Proof. apply flat_map_app. Qed.

Lemma train_calls_app (l1 l2 : list event) :
  train_calls (l1 ++ l2) = train_calls l1 ++ train_calls l2.
Proof. apply flat_map_app. Qed.

Lemma summaries_app (l1 l2 : list event) :
  summaries (l1 ++ l2) = summaries l1 ++ summaries l2.
Proof. apply flat_map_app. Qed.

Lemma runs_sweep_events (E : Env) (a : model_choice) (ds : CharDataset)
  (val : Tensor * Tensor) (its : list (nat * Hyp)) (id : nat) :
  map (fun r => (tr_model (fst (fst r)), snd (fst r), snd r))
    (runs (sweep_events E a ds val id its))
  = map snd (sweep_results E a ds val id its).
Proof.
  revert id. induction its as [|[run_idx hyp] rest IH]; intros id.
  - reflexivity.
  - cbn [sweep_events sweep_results]. rewrite runs_app, map_app, IH.
    reflexivity.
Qed.

Lemma sweep_results_length (E : Env) (a : model_choice) (ds : CharDataset)
  (val : Tensor * Tensor) (its : list (nat * Hyp)) (id : nat) :
  length (sweep_results E a ds val id its) = length its.
Proof.
  revert id. induction its as [|[run_idx hyp] rest IH]; intros id; simpl.
  - reflexivity.
  - now rewrite IH.
Qed.

Lemma new_trainers_sweep_events (E : Env) (a : model_choice)
  (ds : CharDataset) (val : Tensor * Tensor) (its : list (nat * Hyp))
  (id : nat) :
  new_trainers (sweep_events E a ds val id its)
  = map (fun r => fst (fst r)) (runs (sweep_events E a ds val id its)).
Proof.
  revert id. induction its as [|[run_idx hyp] rest IH]; intros id.
  - reflexivity.
  - cbn [sweep_events]. rewrite new_trainers_app, runs_app, map_app, IH.
    reflexivity.
Qed.

Lemma enumerate_snd (A : Type) (l : list A) : map snd (enumerate l) = l.
Proof.
  unfold enumerate. generalize 0.
  induction l as [|x l IH]; intros n; simpl.
  - reflexivity.
  - now rewrite IH.
Qed.

Lemma enumerate_fst (A : Type) (l : list A) :
  map fst (enumerate l) = seq 0 (length l).
Proof.
  unfold enumerate. generalize 0.
  induction l as [|x l IH]; intros n; simpl.
  - reflexivity.
  - now rewrite IH.
Qed.

Lemma runs_main_log (E : Env) (a : model_choice) (ds : CharDataset)
  (val : Tensor * Tensor) (its : list (nat * Hyp)) (id : nat)
  (p v lr : float) (hd ne : Z) :
  runs (sweep_events E a ds val id its ++ [EvPrintSummary p v lr hd ne])
  = runs (sweep_events E a ds val id its).
Proof. rewrite runs_app. simpl. apply app_nil_r. Qed.

(** A run of the log and the result the selection saw at the same position. *)
Lemma run_result_nth (E : Env) (a : model_choice) (ds : CharDataset)
  (val : Tensor * Tensor) (its : list (nat * Hyp)) (id i : nat)
  (t : Trainer) (vl vp : float) :
  nth_error (runs (sweep_events E a ds val id its)) i = Some (t, vl, vp) ->
  exists hyp,
    nth_error (sweep_results E a ds val id its) i
    = Some (hyp, (tr_model t, vl, vp))
    /\ nth_error (map snd its) i = Some hyp.
Proof.
  intros Hi.
  pose proof (runs_sweep_events E a ds val its id) as Heq.
  apply (f_equal (fun l => nth_error l i)) in Heq.
  rewrite !nth_error_map, Hi in Heq. simpl in Heq.
  destruct (nth_error (sweep_results E a ds val id its) i) as [[hyp r]|] eqn:Hr;
    [|discriminate].
  simpl in Heq. injection Heq as <-.
  exists hyp. split; [reflexivity|].
  rewrite <- (sweep_results_hyps E a ds val its id), nth_error_map, Hr.
  reflexivity.
Qed.

Lemma result_run_nth (E : Env) (a : model_choice) (ds : CharDataset)
  (val : Tensor * Tensor) (its : list (nat * Hyp)) (id j : nat)
  (hr : Hyp * (Model * float * float)) :
  nth_error (sweep_results E a ds val id its) j = Some hr ->
  exists t vp,
    nth_error (runs (sweep_events E a ds val id its)) j
    = Some (t, result_loss hr, vp).
Proof.
  intros Hj.
  pose proof (runs_sweep_events E a ds val its id) as Heq.
  apply (f_equal (fun l => nth_error l j)) in Heq.
  rewrite !nth_error_map, Hj in Heq. simpl in Heq.
  destruct (nth_error (runs (sweep_events E a ds val id its)) j)
    as [[[t vl] vp]|] eqn:Hr; [|discriminate].
  simpl in Heq. injection Heq as Heq. exists t, vp.
  unfold result_loss. rewrite <- Heq. reflexivity.
Qed.

(* ------------------------------------------------------------------ *)
(** * The vocabulary *)

Lemma N_of_ascii_inj (c d : ascii) : N_of_ascii c = N_of_ascii d -> c = d.
Proof.
  intros H. rewrite <- (ascii_N_embedding c), <- (ascii_N_embedding d).
  now rewrite H.
Qed.

Lemma insert_char_In (x c : ascii) (l : list ascii) :
  In x (insert_char c l) <-> x = c \/ In x l.
Proof.
  induction l as [|d l IH]; simpl.
  - intuition.
  - destruct (N.ltb_spec (N_of_ascii c) (N_of_ascii d)).
    + simpl. intuition.
    + destruct (N.eqb_spec (N_of_ascii c) (N_of_ascii d)) as [Heq|Hne].
      * apply N_of_ascii_inj in Heq. subst d. simpl. intuition.
      * simpl. rewrite IH. intuition.
Qed.

Lemma sorted_chars_In (x : ascii) (data : list ascii) :
  In x (sorted_chars data) <-> In x data.
Proof.
  induction data as [|c data IH]; simpl.
  - reflexivity.
  - rewrite insert_char_In, IH. intuition.
Qed.

Lemma sorted_chars_nonempty (data : list ascii) :
  data <> [] -> 0 < length (sorted_chars data).
Proof.
  intros Hne. destruct data as [|c data]; [congruence|].
  assert (Hin : In c (sorted_chars (c :: data))).
  { apply sorted_chars_In. now left. }
  destruct (sorted_chars (c :: data)); [contradiction|simpl; lia].
Qed.

Lemma index_of_nth_error (c : ascii) (l : list ascii) (i : nat) :
  index_of c l = Some i -> nth_error l i = Some c.
Proof.
  revert i. induction l as [|d l IH]; intros i; simpl.
  - discriminate.
  - destruct (Ascii.eqb_spec c d) as [->|Hne].
    + intros [= <-]. reflexivity.
    + destruct (index_of c l) as [j|]; [|discriminate].
      intros [= <-]. simpl. now apply IH.
Qed.

Lemma index_of_In (c : ascii) (l : list ascii) :
  In c l -> exists i, index_of c l = Some i.
Proof.
  induction l as [|d l IH]; simpl.
  - contradiction.
  - intros Hin. destruct (Ascii.eqb_spec c d) as [->|Hne].
    + now exists 0.
    + destruct Hin as [Heq|Hin]; [congruence|].
      destruct (IH Hin) as (i & ->). now exists (S i).
Qed.

Lemma index_of_None (c : ascii) (l : list ascii) :
  index_of c l = None -> ~ In c l.
Proof.
  intros Hnone Hin. destruct (index_of_In c l Hin) as (i & Hi). congruence.
Qed.

(** The characters a dataset indexes are those of its text. *)
Lemma stoi_defined (config : DataConfig) (text : list ascii) (c : ascii) :
  In c text <-> exists i, stoi (CharDataset_init config text) c = Some i.
Proof.
  unfold stoi, CharDataset_init. simpl. split.
  - intros Hin. apply index_of_In, sorted_chars_In, Hin.
  - intros (i & Hi). apply sorted_chars_In.
    eapply nth_error_In, index_of_nth_error, Hi.
Qed.

Lemma stoi_all_inr (ds : CharDataset) (s : list ascii) (l : list nat) :
  stoi_all ds s = inr l ->
  length l = length s
  /\ forall i c, nth_error s i = Some c ->
       exists j, nth_error l i = Some j /\ stoi ds c = Some j.
Proof.
  revert l. induction s as [|x s IH]; intros l; simpl.
  - intros [= <-]. split; [reflexivity|]. intros [|i] c; discriminate.
  - destruct (stoi ds x) as [j|] eqn:Hx; [|discriminate].
    destruct (stoi_all ds s) as [e|l'] eqn:Hs; [discriminate|].
    intros [= <-]. destruct (IH l' eq_refl) as [Hlen Hnth].
    split; [simpl; now rewrite Hlen|].
    intros [|i] c; simpl.
    + intros [= <-]. now exists j.
    + apply Hnth.
Qed.

Lemma stoi_all_inl (ds : CharDataset) (s : list ascii) (e : exn) :
  stoi_all ds s = inl e ->
  exists c, e = KeyError c /\ In c s /\ stoi ds c = None.
Proof.
  induction s as [|x s IH]; simpl.
  - discriminate.
  - destruct (stoi ds x) as [j|] eqn:Hx.
    + destruct (stoi_all ds s) as [e'|l'] eqn:Hs; [|discriminate].
      intros [= <-]. destruct (IH eq_refl) as (c & He & Hin & Hc).
      exists c. auto.
    + intros [= <-]. exists x. auto.
Qed.

Lemma stoi_all_defined (ds : CharDataset) (s : list ascii) :
  (forall c, In c s -> exists j, stoi ds c = Some j) ->
  exists l, stoi_all ds s = inr l.
Proof.
  intros Hall. destruct (stoi_all ds s) as [e|l] eqn:Hs.
  - destruct (stoi_all_inl ds s e Hs) as (c & _ & Hin & Hc).
    destruct (Hall c Hin) as (j & Hj). congruence.
  - now exists l.
Qed.

(* ------------------------------------------------------------------ *)
(** * The split index *)

Lemma binary_round_aux_sign (p em : Z) (s : bool) (mx ex : Z) (lx : location) :
  match binary_round_aux p em s mx ex lx with
  | S754_zero s' | S754_infinity s' | S754_finite s' _ _ => s' = s
  | S754_nan => True
  end.
Proof.
  unfold binary_round_aux.
  destruct (shr_fexp p em mx ex lx) as [mrs' e'].
  destruct (shr_fexp p em _ e' loc_Exact) as [mrs'' e''].
  destruct (shr_m mrs''); try exact I; try reflexivity.
  destruct (Z.leb e'' (em - p)); reflexivity.
Qed.

Lemma to_int_nonneg (x : float) (k : Z) :
  match x with
  | S754_zero s' | S754_infinity s' | S754_finite s' _ _ => s' = false
  | S754_nan => True
  end ->
  PyFloat.to_int x = inr k -> (0 <= k)%Z.
Proof.
  destruct x as [s|s| |s m e]; simpl; intros Hs; try discriminate.
  - intros [= <-]. lia.
  - subst s. intros [= <-]. apply Z.shiftl_nonneg. lia.
Qed.

Lemma split_index_nonneg (len : nat) (k : Z) :
  split_index len = inr k -> (0 <= k)%Z.
Proof.
  unfold split_index. apply to_int_nonneg.
  unfold PyFloat.mul, PyFloat.of_int, binary_normalize.
  destruct (Z.of_nat len) as [|p|p] eqn:Hlen; [reflexivity| |lia].
  unfold binary_round.
  destruct (shl_align _ _ _) as [mz ez].
  pose proof (binary_round_aux_sign PyFloat.prec PyFloat.emax false
                (Z.pos mz) ez loc_Exact) as Hsign.
  destruct (binary_round_aux PyFloat.prec PyFloat.emax false (Z.pos mz) ez
              loc_Exact) as [s|s| |s m e]; try subst s; try exact I;
    try reflexivity.
  unfold PyFloat.f_0_7, SFmul.
  apply (binary_round_aux_sign PyFloat.prec PyFloat.emax (xorb false false)).
Qed.

(** [int(n * 0.7)] on corpora of up to 1000 characters: the product is
    rounded to binary64 before it is truncated, which gives [7 * n / 10],
    or one less on some multiples of ten (90 gives 62). *)
Lemma split_index_bounds (n : nat) (k : Z) :
  n <= 1000 -> split_index n = inr k ->
  (7 * Z.of_nat n - 10 <= 10 * k <= 7 * Z.of_nat n)%Z.
Proof.
  intros Hn Hk.
  assert (Hall : forallb split_index_in_bounds (seq 0 1001) = true)
    by (vm_compute; reflexivity).
  rewrite forallb_forall in Hall.
  assert (Hin : In n (seq 0 1001)) by (apply in_seq; lia).
  specialize (Hall n Hin). unfold split_index_in_bounds in Hall.
  rewrite Hk in Hall. apply andb_prop in Hall. destruct Hall as [H1 H2].
  apply Z.leb_le in H1. apply Z.leb_le in H2. lia.
Qed.

Lemma py_slice_to_firstn (A : Type) (l : list A) (k : Z) :
  (0 <= k)%Z -> py_slice_to l k = firstn (Z.to_nat k) l.
Proof.
  intros Hk. unfold py_slice_to, slice_bound.
  destruct (Z.ltb_spec k 0); [lia|reflexivity].
Qed.

Lemma py_slice_from_skipn (A : Type) (l : list A) (k : Z) :
  (0 <= k)%Z -> py_slice_from l k = skipn (Z.to_nat k) l.
Proof.
  intros Hk. unfold py_slice_from, slice_bound.
  destruct (Z.ltb_spec k 0); [lia|reflexivity].
Qed.

Lemma py_slice_partition (A : Type) (l : list A) (k : Z) :
  py_slice_to l k ++ py_slice_from l k = l.
Proof. apply firstn_skipn. Qed.

(* ------------------------------------------------------------------ *)
(** * The [__main__] block around the sweep *)

Lemma swept_config_trainer (E : Env) (a : model_choice) (id : nat) (hyp : Hyp) :
  c_trainer (swept_config E a id hyp) = c_trainer (base_config E a 0).
Proof. destruct hyp as [[lr hd] ne], a; reflexivity. Qed.

Lemma new_trainers_sweep_In (E : Env) (a : model_choice) (ds : CharDataset)
  (val : Tensor * Tensor) (its : list (nat * Hyp)) (id : nat) (t : Trainer) :
  In t (new_trainers (sweep_events E a ds val id its)) ->
  tr_train_dataset t = ds /\ tr_val_dataset t = val
  /\ tr_config t = c_trainer (base_config E a 0).
Proof.
  revert id. induction its as [|[run_idx hyp] rest IH]; intros id.
  - contradiction.
  - cbn [sweep_events]. rewrite new_trainers_app. intros Hin.
    apply in_app_or in Hin. destruct Hin as [Hin|Hin].
    + simpl in Hin. destruct Hin as [<-|[]]. simpl.
      rewrite swept_config_trainer. auto.
    + eapply IH, Hin.
Qed.

Lemma new_trainers_main_log (E : Env) (a : model_choice) (ds : CharDataset)
  (val : Tensor * Tensor) (its : list (nat * Hyp)) (id : nat)
  (p v lr : float) (hd ne : Z) :
  new_trainers
    (sweep_events E a ds val id its ++ [EvPrintSummary p v lr hd ne])
  = new_trainers (sweep_events E a ds val id its).
Proof. rewrite new_trainers_app. simpl. apply app_nil_r. Qed.

Lemma base_trainer_learning_rate (E : Env) (a : model_choice) (id : nat) :
  learning_rate (c_trainer (base_config E a id)) = PyFloat.f_5e_4.
Proof. destruct a; reflexivity. Qed.

(** Once the validation text is mapped, the block ends normally or with the
    unbound [model] of [train]; no [KeyError] is left to raise. *)
Lemma main_after_mapping (E : Env) (a : model_choice) (data : list ascii)
  (k : Z) (val_data : list nat) :
  split_index (length data) = inr k ->
  stoi_all (CharDataset_init (mkDataConfig 10) (py_slice_to data k))
    (py_slice_from data k) = inr val_data ->
  (exists st, snd (main E a data world0) = inr st)
  \/ snd (main E a data world0) = inl UnboundLocalError.
Proof.
  intros Hk Hmap.
  destruct (get_val_dataset_total (mkDataConfig 10) val_data)
    as (val_dataset & Hval).
  destruct (model_type_known (model_type (c_model (base_config E a 0))))
    eqn:Hmt.
  - left. rewrite (main_known E a data k val_data val_dataset Hk Hmap Hval Hmt).
    eexists. reflexivity.
  - right.
    unfold main. unfold bind at 1. unfold lift at 1. rewrite Hk.
    unfold bind at 1. unfold lift at 1. rewrite Hmap.
    unfold bind at 1. unfold lift at 1. rewrite Hval.
    unfold bind at 1.
    match goal with |- context [sweep_loop ?e ?a0 ?d ?v ?l ?s ?w0] =>
      pose proof (sweep_loop_unknown e a0 d v l s w0) as Hl;
      destruct (sweep_loop e a0 d v l s w0) as [w2 [e2|r2]]
    end.
    + simpl in *. assert (He : inl e2 = inl UnboundLocalError :> exn + SweepState).
      { apply Hl; [discriminate | exact Hmt]. }
      now inversion He.
    + simpl in Hl.
      assert (He : inr r2 = inl UnboundLocalError :> exn + SweepState).
      { apply Hl; [discriminate | exact Hmt]. }
      discriminate.
Qed.

Lemma main_key_error (E : Env) (a : model_choice) (data : list ascii)
  (k : Z) (e : exn) :
  split_index (length data) = inr k ->
  stoi_all (CharDataset_init (mkDataConfig 10) (py_slice_to data k))
    (py_slice_from data k) = inl e ->
  main E a data world0 = (world0, inl e).
Proof.
  intros Hk Hmap.
  unfold main. unfold bind at 1. unfold lift at 1. rewrite Hk.
  unfold bind at 1. unfold lift at 1. rewrite Hmap. reflexivity.
Qed.

(* ------------------------------------------------------------------ *)
(** * The runs of a sweep, one by one *)

Lemma combine_map_fst (A B C : Type) (f : A -> C) (l : list A) (l' : list B) :
  combine (map f l) l' = map (fun p => (f (fst p), snd p)) (combine l l').
Proof.
  revert l'. induction l as [|x l IH]; intros [|y l']; simpl; try reflexivity.
  now rewrite IH.
Qed.

Lemma train_calls_sweep_events (E : Env) (a : model_choice)
  (ds : CharDataset) (val : Tensor * Tensor) (its : list (nat * Hyp))
  (id : nat) :
  train_calls (sweep_events E a ds val id its)
  = map (fun p => (swept_config E a (id + 2 * fst p) (snd (snd p)),
                   fst (snd p)))
      (combine (seq 0 (length its)) its).
Proof.
  revert id. induction its as [|[run_idx hyp] rest IH]; intros id.
  - reflexivity.
  - cbn [sweep_events]. rewrite train_calls_app, IH.
    cbn [length seq combine map fst snd train_calls train_events flat_map app].
    rewrite Nat.add_0_r. f_equal.
    rewrite <- seq_shift, combine_map_fst, map_map.
    apply map_ext. intros [i [r h]]. cbn [fst snd]. f_equal. f_equal. lia.
Qed.

Lemma new_models_sweep_events (E : Env) (a : model_choice)
  (ds : CharDataset) (val : Tensor * Tensor) (its : list (nat * Hyp))
  (id : nat) :
  new_models (sweep_events E a ds val id its)
  = map (fun p => train_model (swept_config E a (id + 2 * fst p) (snd (snd p)))
                    ds (S (id + 2 * fst p)))
      (combine (seq 0 (length its)) its).
Proof.
  revert id. induction its as [|[run_idx hyp] rest IH]; intros id.
  - reflexivity.
  - cbn [sweep_events]. rewrite new_models_app, IH.
    cbn [length seq combine map fst snd new_models train_events flat_map app].
    rewrite Nat.add_0_r. f_equal.
    rewrite <- seq_shift, combine_map_fst, map_map.
    apply map_ext. intros [i [r h]]. cbn [fst snd].
    replace (S (S id) + 2 * i) with (id + 2 * S i) by lia. reflexivity.
Qed.

Lemma runs_models_sweep_events (E : Env) (a : model_choice)
  (ds : CharDataset) (val : Tensor * Tensor) (its : list (nat * Hyp))
  (id : nat) :
  map (fun r => tr_model (fst (fst r))) (runs (sweep_events E a ds val id its))
  = new_models (sweep_events E a ds val id its).
Proof.
  revert id. induction its as [|[run_idx hyp] rest IH]; intros id.
  - reflexivity.
  - cbn [sweep_events]. rewrite runs_app, new_models_app, map_app, IH.
    reflexivity.
Qed.

Lemma runs_sweep_events_length (E : Env) (a : model_choice)
  (ds : CharDataset) (val : Tensor * Tensor) (its : list (nat * Hyp))
  (id : nat) :
  length (runs (sweep_events E a ds val id its)) = length its.
Proof.
  rewrite <- (length_map (fun r => (tr_model (fst (fst r)), snd (fst r), snd r))).
  now rewrite runs_sweep_events, length_map, sweep_results_length.
Qed.

Lemma swept_config_id (E : Env) (a : model_choice) (id : nat) (hyp : Hyp) :
  c_id (swept_config E a id hyp) = id.
Proof. destruct hyp as [[lr hd] ne], a; reflexivity. Qed.

Lemma swept_config_hyp (E : Env) (a : model_choice) (id : nat) (hyp : Hyp) :
  config_hyp (swept_config E a id hyp) = Some hyp.
Proof. destruct hyp as [[lr hd] ne], a; reflexivity. Qed.

Lemma train_calls_main_log (E : Env) (a : model_choice) (ds : CharDataset)
  (val : Tensor * Tensor) (its : list (nat * Hyp)) (id : nat)
  (p v lr : float) (hd ne : Z) :
  train_calls
    (sweep_events E a ds val id its ++ [EvPrintSummary p v lr hd ne])
  = train_calls (sweep_events E a ds val id its).
Proof. rewrite train_calls_app. simpl. apply app_nil_r. Qed.

Lemma new_models_main_log (E : Env) (a : model_choice) (ds : CharDataset)
  (val : Tensor * Tensor) (its : list (nat * Hyp)) (id : nat)
  (p v lr : float) (hd ne : Z) :
  new_models
    (sweep_events E a ds val id its ++ [EvPrintSummary p v lr hd ne])
  = new_models (sweep_events E a ds val id its).
Proof. rewrite new_models_app. simpl. apply app_nil_r. Qed.

(* ------------------------------------------------------------------ *)
(** * What [train] hands to the model constructor *)

Lemma train_model_args_sizes (c : Config) (ds : CharDataset) :
  args_vocab_size (train_model_args c ds) = Some (get_vocab_size ds)
  /\ args_block_size (train_model_args c ds) = Some (get_block_size ds)
  /\ m_vocab_size (args_model_cfg (train_model_args c ds))
     = Some (get_vocab_size ds)
  /\ m_block_size (args_model_cfg (train_model_args c ds))
     = Some (get_block_size ds).
Proof.
  unfold train_model_args.
  destruct (String.eqb (model_type (c_model c)) "feedforward"); simpl; auto.
Qed.

Lemma get_vocab_size_pos (config : DataConfig) (text : list ascii) :
  0 < get_vocab_size (CharDataset_init config text) <-> text <> [].
Proof.
  unfold get_vocab_size, CharDataset_init. simpl. split.
  - intros H ->. simpl in H. lia.
  - apply sorted_chars_nonempty.
Qed.

(* ------------------------------------------------------------------ *)
(** * The claims *)


(** C3, as the code has it. The sweep starts from [float('inf')] and
    replaces the retained run only on a strictly lower loss, so a run whose
    loss is NaN or not below [float('inf')] is never retained. Among the
    others the earliest run attaining the minimum is retained: if run [i]
    returned a loss [vl] below [float('inf')], no run returned a loss below
    [vl], and every earlier run returned a strictly larger loss or NaN (so
    that a later run with the same loss did not replace it), then the sweep
    variables hold the model, loss, perplexity and grid point of run
    [i]. *)
Theorem sweep_retains_earliest_minimum (E : Env) (a : model_choice)
  (data : list ascii) (w' : World) (st : SweepState)
  (i : nat) (t : Trainer) (vl vp : float) :
  main E a data world0 = (w', inr st) ->
  nth_error (runs (log w')) i = Some (t, vl, vp) ->
  PyFloat.ltb vl PyFloat.inf = true ->
  (forall j t' vl' vp',
      nth_error (runs (log w')) j = Some (t', vl', vp') ->
      PyFloat.ltb vl' vl = false) ->
  (forall j t' vl' vp',
      j < i -> nth_error (runs (log w')) j = Some (t', vl', vp') ->
      PyFloat.ltb vl vl' = true \/ PyFloat.is_nan vl' = true) ->
  best_model st = Some (tr_model t)
  /\ best_val_loss st = vl
  /\ best_val_perplexity st = vp
  /\ best_hyps st = nth_error hyperparameters_list i.
Proof.
  intros Hmain Hi Hinf Hmin Hfirst.
  destruct (main_inr_known E a data w' st Hmain)
    as (k & val_data & val_dataset & Hk & Hmap & Hval & Hmt & Hst & Hlog).
  rewrite Hlog, runs_main_log in Hi, Hmin, Hfirst.
  destruct (run_result_nth _ _ _ _ _ _ _ _ _ _ Hi) as (hyp & Hres & Hhyp).
  rewrite enumerate_snd in Hhyp. rewrite Hhyp, Hst.
  apply (select_best_earliest_min _ _ _ _ _ _ _ Hres).
  - exact Hinf.
  - intros j hr Hj. destruct (result_run_nth _ _ _ _ _ _ _ _ Hj) as (t' & vp' & Hr).
    apply (Hmin j t' _ vp' Hr).
  - intros j hr Hlt Hj.
    destruct (result_run_nth _ _ _ _ _ _ _ _ Hj) as (t' & vp' & Hr).
    apply (Hfirst j t' _ vp' Hlt Hr).
Qed.

Lemma sweep_retains_earliest_minimum_witness :
  exists st t,
    snd (main env_nan arg_feedforward corpus_abc world0) = inr st
    /\ nth_error
         (runs (log (fst (main env_nan arg_feedforward corpus_abc world0)))) 2
       = Some (t, PyFloat.f_1_5, PyFloat.f_2_25)
    /\ best_model st = Some (tr_model t)
    /\ best_val_loss st = PyFloat.f_1_5
    /\ best_val_perplexity st = PyFloat.f_2_25
    /\ best_hyps st = Some (PyFloat.f_2e_4, 300%Z, 48%Z).
Proof.
  eexists. eexists.
  split; [vm_compute; reflexivity|].
  split; [vm_compute; reflexivity|].
  apply (sweep_retains_earliest_minimum env_nan arg_feedforward corpus_abc
           (fst (main env_nan arg_feedforward corpus_abc world0)) _ 2).
  - vm_compute. reflexivity.
  - vm_compute. reflexivity.
  - vm_compute. reflexivity.
  - intros j t' vl' vp' Hj.
    do 12 (destruct j as [|j];
           [vm_compute in Hj; injection Hj as <- <- <-; vm_compute; reflexivity|]).
    vm_compute in Hj. destruct j; discriminate.
  - intros j t' vl' vp' Hlt Hj.
    destruct j as [|j];
      [vm_compute in Hj; injection Hj as <- <- <-; left; vm_compute;
       reflexivity|].
    destruct j as [|j];
      [vm_compute in Hj; injection Hj as <- <- <-; right; vm_compute;
       reflexivity|].
    lia.
Defined.

(** C3, counterexample. When every run returns a loss of [float('inf')]
    the twelve runs are made, run 0 is the earliest run attaining the
    minimum, and the sweep retains no run: [best_model] and [best_hyps] are
    still [None]. *)
Lemma sweep_all_infinite_retains_nothing :
  exists st,
    snd (main env_all_inf arg_feedforward corpus_abc world0) = inr st
    /\ map (fun r => snd (fst r))
         (runs (log (fst (main env_all_inf arg_feedforward corpus_abc
                            world0))))
       = repeat PyFloat.inf 12
    /\ best_model st = None
    /\ best_hyps st = None.
Proof.
  eexists. split; [vm_compute; reflexivity|].
  repeat split; vm_compute; reflexivity.
Qed.



(** C10. When the validation sequence is no longer than the block size,
    [get_val_dataset] raises nothing and returns a pair of empty tensors:
    the zero-window case is not rejected here. *)
Theorem get_val_dataset_short_is_empty (data_config : DataConfig)
  (val_data : list nat) :
  length val_data <= block_size data_config ->
  get_val_dataset data_config val_data
  = inr (mkTensor [0] [], mkTensor [0] []).
Proof. apply get_val_dataset_empty. Qed.

Lemma get_val_dataset_short_is_empty_witness :
  get_val_dataset (mkDataConfig 10) [1; 2; 0; 1; 2; 0]
  = inr (mkTensor [0] [], mkTensor [0] []).
Proof.
  apply (get_val_dataset_short_is_empty (mkDataConfig 10) [1; 2; 0; 1; 2; 0]).
  simpl. lia.
Defined.

(** C5. When the validation sequence is longer than the block size,
    [get_val_dataset] returns exactly [len(val_data) - block_size] windows;
    every input and every target has length [block_size]; position [i] of
    window [w] holds [val_data[w + i]] in the input and [val_data[w + i + 1]]
    in the target, so that [target[i] = input[i + 1]] below the last
    position and the last target is the element one step past the input
    window. *)
Theorem get_val_dataset_windows (data_config : DataConfig)
  (val_data : list nat) :
  block_size data_config < length val_data ->
  let bs := block_size data_config in
  let n := length val_data - bs in
  exists inputs targets,
    get_val_dataset data_config val_data
    = inr (mkTensor [n; bs] inputs, mkTensor [n; bs] targets)
    /\ length inputs = n /\ length targets = n
    /\ forall w, w < n ->
       exists input target,
         nth_error inputs w = Some input
         /\ nth_error targets w = Some target
         /\ length input = bs /\ length target = bs
         /\ (forall i, i < bs ->
               nth_error input i = nth_error val_data (w + i)
               /\ nth_error target i = nth_error val_data (w + i + 1))
         /\ (forall i, i + 1 < bs ->
               nth_error target i = nth_error input (i + 1)).
Proof.
  intros Hlen bs n.
  exists (map (input_window val_data bs) (seq 0 n)),
         (map (target_window val_data bs) (seq 0 n)).
  split; [apply get_val_dataset_known; exact Hlen|].
  split; [now rewrite length_map, length_seq|].
  split; [now rewrite length_map, length_seq|].
  intros w Hw.
  exists (input_window val_data bs w), (target_window val_data bs w).
  assert (Hseq : nth_error (seq 0 n) w = Some w).
  { rewrite nth_error_seq. destruct (Nat.ltb_spec w n); [reflexivity|lia]. }
  assert (Hget_i : forall i, i < bs ->
            nth_error (input_window val_data bs w) i
            = nth_error val_data (w + i)).
  { intros i Hi. unfold input_window. apply py_slice_nth_error. lia. }
  assert (Hget_t : forall i, i < bs ->
            nth_error (target_window val_data bs w) i
            = nth_error val_data (w + i + 1)).
  { intros i Hi. unfold target_window. rewrite py_slice_nth_error by lia.
    f_equal. lia. }
  split; [now rewrite nth_error_map, Hseq|].
  split; [now rewrite nth_error_map, Hseq|].
  split; [apply input_window_length; exact Hw|].
  split; [apply target_window_length; exact Hw|].
  split.
  - intros i Hi. split; [apply Hget_i | apply Hget_t]; exact Hi.
  - intros i Hi. rewrite Hget_t, Hget_i by lia. f_equal. lia.
Qed.

Lemma get_val_dataset_windows_witness :
  exists inputs targets,
    get_val_dataset (mkDataConfig 3) [5; 6; 7; 8; 9]
    = inr (mkTensor [2; 3] inputs, mkTensor [2; 3] targets)
    /\ length inputs = 2 /\ length targets = 2
    /\ forall w, w < 2 ->
       exists input target,
         nth_error inputs w = Some input
         /\ nth_error targets w = Some target
         /\ length input = 3 /\ length target = 3
         /\ (forall i, i < 3 ->
               nth_error input i = nth_error [5; 6; 7; 8; 9] (w + i)
               /\ nth_error target i = nth_error [5; 6; 7; 8; 9] (w + i + 1))
         /\ (forall i, i + 1 < 3 ->
               nth_error target i = nth_error input (i + 1)).
Proof.
  apply (get_val_dataset_windows (mkDataConfig 3) [5; 6; 7; 8; 9]).
  simpl. lia.
Defined.

(** C6. Let the corpus be split at [k = int(len(data) * 0.7)]. If the
    validation part contains a character that does not occur in the training
    part, the [__main__] block raises [KeyError] on such a character while
    mapping the validation part through the training vocabulary, with
    nothing logged: no training run has started. Otherwise the mapping
    succeeds, it sends every validation character to its index in the
    training vocabulary, and no [KeyError] ends the block. *)
Theorem validation_mapping_raises_or_succeeds (E : Env) (a : model_choice)
  (data : list ascii) (k : Z) :
  split_index (length data) = inr k ->
  let ds := CharDataset_init (mkDataConfig 10) (py_slice_to data k) in
  ((exists c, In c (py_slice_from data k) /\ ~ In c (py_slice_to data k)) ->
   exists c,
     In c (py_slice_from data k) /\ ~ In c (py_slice_to data k)
     /\ main E a data world0 = (world0, inl (KeyError c)))
  /\
  ((forall c, In c (py_slice_from data k) -> In c (py_slice_to data k)) ->
   exists val_data,
     stoi_all ds (py_slice_from data k) = inr val_data
     /\ length val_data = length (py_slice_from data k)
     /\ (forall i c, nth_error (py_slice_from data k) i = Some c ->
           exists j, nth_error val_data i = Some j
                     /\ nth_error (chars ds) j = Some c)
     /\ (forall c, snd (main E a data world0) <> inl (KeyError c))).
Proof.
  intros Hk ds. split.
  - intros (c & Hval & Htrain).
    destruct (stoi_all ds (py_slice_from data k)) as [e|val_data] eqn:Hmap.
    + destruct (stoi_all_inl ds _ e Hmap) as (c' & -> & Hin & Hnone).
      exists c'. split; [exact Hin|]. split.
      * intros Hc'. apply (stoi_defined (mkDataConfig 10)) in Hc'.
        destruct Hc' as (i & Hi). fold ds in Hi. congruence.
      * now apply main_key_error with (k := k).
    + exfalso. apply Htrain.
      destruct (In_nth_error _ _ Hval) as (i & Hi).
      destruct (stoi_all_inr ds _ val_data Hmap) as [_ Hnth].
      destruct (Hnth i c Hi) as (j & _ & Hj).
      apply (stoi_defined (mkDataConfig 10)). exists j. exact Hj.
  - intros Hall.
    destruct (stoi_all_defined ds (py_slice_from data k)) as (val_data & Hmap).
    { intros c Hc. apply (stoi_defined (mkDataConfig 10)), Hall, Hc. }
    exists val_data. destruct (stoi_all_inr ds _ val_data Hmap) as [Hlen Hnth].
    split; [exact Hmap|]. split; [exact Hlen|]. split.
    + intros i c Hi. destruct (Hnth i c Hi) as (j & Hj & Hs).
      exists j. split; [exact Hj|]. apply index_of_nth_error, Hs.
    + intros c Hc.
      destruct (main_after_mapping E a data k val_data Hk Hmap)
        as [(st & Hst)|Hu]; congruence.
Qed.

Lemma validation_mapping_raises_or_succeeds_witness :
  (exists c,
     In c (py_slice_from corpus_unseen 28)
     /\ ~ In c (py_slice_to corpus_unseen 28)
     /\ main env_tie arg_feedforward corpus_unseen world0
        = (world0, inl (KeyError c)))
  /\
  (exists val_data,
     stoi_all (CharDataset_init (mkDataConfig 10) (py_slice_to corpus_abc 28))
       (py_slice_from corpus_abc 28) = inr val_data
     /\ length val_data = length (py_slice_from corpus_abc 28)
     /\ (forall i c, nth_error (py_slice_from corpus_abc 28) i = Some c ->
           exists j,
             nth_error val_data i = Some j
             /\ nth_error
                  (chars (CharDataset_init (mkDataConfig 10)
                            (py_slice_to corpus_abc 28))) j = Some c)
     /\ (forall c,
           snd (main env_tie arg_feedforward corpus_abc world0)
           <> inl (KeyError c))).
Proof.
  split.
  - apply (proj1 (validation_mapping_raises_or_succeeds env_tie
                    arg_feedforward corpus_unseen 28 eq_refl)).
    exists "z"%char. split.
    + vm_compute. tauto.
    + vm_compute. intros H.
      repeat (destruct H as [H|H]; [discriminate|]). exact H.
  - apply (proj2 (validation_mapping_raises_or_succeeds env_tie
                    arg_feedforward corpus_abc 28 eq_refl)).
    intros c Hc. vm_compute in Hc. vm_compute.
    repeat (destruct Hc as [<-|Hc]; [tauto|]). contradiction.
Defined.

(** C7. In a completed sweep the training dataset is built from exactly the
    first [k] characters of the corpus, where [k] is the value of
    [int(len(data) * 0.7)]: the binary64 product of the length and the
    constant [0.7], truncated ([7 * len / 10], or one less on some
    multiples of ten, checked for corpora of up to 1000 characters). The
    validation part is the remaining suffix, and the validation indices are
    the suffix mapped through the [stoi] of that same training dataset;
    every trainer receives this dataset and the windows cut from these
    indices. *)
Theorem corpus_split_shares_training_vocabulary (E : Env) (a : model_choice)
  (data : list ascii) (w' : World) (st : SweepState) :
  main E a data world0 = (w', inr st) ->
  exists k val_data val_dataset,
    PyFloat.to_int
      (PyFloat.mul (PyFloat.of_int (Z.of_nat (length data))) PyFloat.f_0_7)
    = inr (Z.of_nat k)
    /\ (length data <= 1000 ->
        7 * length data - 10 <= 10 * k <= 7 * length data)
    /\ firstn k data ++ skipn k data = data
    /\ let ds := CharDataset_init (mkDataConfig 10) (firstn k data) in
       ds_data ds = firstn k data
       /\ stoi_all ds (skipn k data) = inr val_data
       /\ length val_data = length (skipn k data)
       /\ (forall i c, nth_error (skipn k data) i = Some c ->
             nth_error val_data i = stoi ds c)
       /\ get_val_dataset (mkDataConfig 10) val_data = inr val_dataset
       /\ length (new_trainers (log w')) = 12
       /\ (forall t, In t (new_trainers (log w')) ->
             tr_train_dataset t = ds /\ tr_val_dataset t = val_dataset).
Proof.
  intros Hmain.
  destruct (main_inr_known E a data w' st Hmain)
    as (k & val_data & val_dataset & Hk & Hmap & Hval & Hmt & Hst & Hlog).
  pose proof (split_index_nonneg _ _ Hk) as Hpos.
  rewrite Hlog. clear Hlog Hst Hmain.
  rewrite py_slice_to_firstn, py_slice_from_skipn in * by exact Hpos.
  exists (Z.to_nat k), val_data, val_dataset.
  split; [rewrite Z2Nat.id by exact Hpos; exact Hk|].
  split.
  { intros Hlen. pose proof (split_index_bounds _ _ Hlen Hk) as Hb. lia. }
  split; [apply firstn_skipn|].
  cbv zeta.
  destruct (stoi_all_inr _ _ val_data Hmap) as [Hlen Hnth].
  split; [reflexivity|]. split; [exact Hmap|]. split; [exact Hlen|].
  split.
  { intros i c Hi. destruct (Hnth i c Hi) as (j & Hj & Hs). congruence. }
  split; [exact Hval|].
  rewrite new_trainers_main_log. split.
  - rewrite new_trainers_sweep_events, length_map.
    rewrite <- (length_map (fun r => (tr_model (fst (fst r)), snd (fst r), snd r))).
    rewrite runs_sweep_events, length_map, sweep_results_length.
    reflexivity.
  - intros t Ht. apply new_trainers_sweep_In in Ht. tauto.
Qed.

(** On the 40-character corpus the split index is 28: the training text is
    the first 28 characters and the validation part the last 12. *)
Lemma corpus_split_shares_training_vocabulary_witness :
  exists val_data val_dataset,
    PyFloat.to_int
      (PyFloat.mul (PyFloat.of_int (Z.of_nat (length corpus_abc)))
         PyFloat.f_0_7)
    = inr 28%Z
    /\ length corpus_abc = 40
    /\ firstn 28 corpus_abc ++ skipn 28 corpus_abc = corpus_abc
    /\ let ds := CharDataset_init (mkDataConfig 10) (firstn 28 corpus_abc) in
       ds_data ds = firstn 28 corpus_abc
       /\ stoi_all ds (skipn 28 corpus_abc) = inr val_data
       /\ length val_data = 12
       /\ (forall i c, nth_error (skipn 28 corpus_abc) i = Some c ->
             nth_error val_data i = stoi ds c)
       /\ get_val_dataset (mkDataConfig 10) val_data = inr val_dataset
       /\ length
            (new_trainers
               (log (fst (main env_tie arg_gpt corpus_abc world0)))) = 12
       /\ (forall t,
             In t (new_trainers
                     (log (fst (main env_tie arg_gpt corpus_abc world0)))) ->
             tr_train_dataset t = ds /\ tr_val_dataset t = val_dataset).
Proof.
  destruct (corpus_split_shares_training_vocabulary env_tie arg_gpt corpus_abc
              (fst (main env_tie arg_gpt corpus_abc world0))
              (match snd (main env_tie arg_gpt corpus_abc world0) with
               | inr st => st
               | inl _ => sweep_init
               end))
    as (k & val_data & val_dataset & Hk & _ & Hsplit & Hrest).
  { vm_compute. reflexivity. }
  assert (Hidx : PyFloat.to_int
                   (PyFloat.mul
                      (PyFloat.of_int (Z.of_nat (length corpus_abc)))
                      PyFloat.f_0_7) = inr 28%Z)
    by (vm_compute; reflexivity).
  assert (Hk28 : k = 28).
  { rewrite Hidx in Hk. injection Hk as Hk. lia. }
  subst k. cbv zeta in Hrest.
  destruct Hrest as (H1 & H2 & H3 & H4 & H5 & H6 & H7).
  exists val_data, val_dataset.
  split; [exact Hidx|]. split; [reflexivity|]. split; [exact Hsplit|].
  cbv zeta.
  split; [exact H1|]. split; [exact H2|]. split; [exact H3|].
  split; [exact H4|]. split; [exact H5|]. split; [exact H6|exact H7].
Defined.

(** C8. When the corpus is split and every validation character occurs in
    the training part, the sweep ends normally after exactly twelve training
    runs, one per element of the product of the three axes in lexicographic
    order, with run indices 0 to 11. Run [i] is handed a configuration that
    is the default profile with the assignments of grid point [i] and
    nothing else, under an identity of its own, and builds a model of its
    own, which is the model its trainer runs. The collaborators are taken to
    return normally, and the model type of the profile to be one for which
    [train] has a branch. *)
Theorem sweep_runs_once_per_grid_point (E : Env) (a : model_choice)
  (data : list ascii) (k : Z) :
  split_index (length data) = inr k ->
  (forall c, In c (py_slice_from data k) -> In c (py_slice_to data k)) ->
  model_type_known (model_type (c_model (base_config E a 0))) = true ->
  exists w' st,
    main E a data world0 = (w', inr st)
    /\ enumerate hyperparameters_list
       = [ (0, (PyFloat.f_2e_4, 200%Z, 48%Z));
           (1, (PyFloat.f_2e_4, 200%Z, 96%Z));
           (2, (PyFloat.f_2e_4, 300%Z, 48%Z));
           (3, (PyFloat.f_2e_4, 300%Z, 96%Z));
           (4, (PyFloat.f_2e_4, 400%Z, 48%Z));
           (5, (PyFloat.f_2e_4, 400%Z, 96%Z));
           (6, (PyFloat.f_3e_4, 200%Z, 48%Z));
           (7, (PyFloat.f_3e_4, 200%Z, 96%Z));
           (8, (PyFloat.f_3e_4, 300%Z, 48%Z));
           (9, (PyFloat.f_3e_4, 300%Z, 96%Z));
           (10, (PyFloat.f_3e_4, 400%Z, 48%Z));
           (11, (PyFloat.f_3e_4, 400%Z, 96%Z)) ]
    /\ length (runs (log w')) = 12
    /\ train_calls (log w')
       = map (fun p => (swept_config E a (2 * fst p) (snd p), fst p))
           (enumerate hyperparameters_list)
    /\ map (fun cr => config_hyp (fst cr)) (train_calls (log w'))
       = map Some hyperparameters_list
    /\ new_models (log w')
       = map (fun p =>
                train_model (swept_config E a (2 * fst p) (snd p))
                  (CharDataset_init (mkDataConfig 10) (py_slice_to data k))
                  (S (2 * fst p)))
           (enumerate hyperparameters_list)
    /\ map (fun r => tr_model (fst (fst r))) (runs (log w'))
       = new_models (log w')
    /\ NoDup (map (fun cr => c_id (fst cr)) (train_calls (log w')))
    /\ NoDup (map model_id (new_models (log w'))).
Proof.
  intros Hk Hall Hmt.
  set (ds := CharDataset_init (mkDataConfig 10) (py_slice_to data k)).
  destruct (stoi_all_defined ds (py_slice_from data k)) as (val_data & Hmap).
  { intros c Hc. apply (stoi_defined (mkDataConfig 10)), Hall, Hc. }
  destruct (get_val_dataset_total (mkDataConfig 10) val_data)
    as (val_dataset & Hval).
  eexists. eexists.
  split; [apply (main_known E a data k val_data val_dataset Hk Hmap Hval Hmt)|].
  cbn [log]. fold ds.
  rewrite runs_main_log, train_calls_main_log, new_models_main_log.
  rewrite runs_sweep_events_length, runs_models_sweep_events.
  rewrite train_calls_sweep_events, new_models_sweep_events.
  split; [reflexivity|]. split; [reflexivity|].
  split; [destruct a; reflexivity|].
  split; [destruct a; reflexivity|].
  split; [destruct a; reflexivity|].
  split; [reflexivity|].
  split.
  - rewrite map_map.
    rewrite (map_ext _ (fun p => 0 + 2 * fst p))
      by (intros p; apply swept_config_id).
    cbn. repeat (constructor; [cbn; lia|]). constructor.
  - rewrite map_map. cbn.
    repeat (constructor; [cbn; lia|]). constructor.
Qed.

Lemma sweep_runs_once_per_grid_point_witness :
  exists w',
    fst (main env_tie arg_feedforward corpus_abc world0) = w'
    /\ length (runs (log w')) = 12
    /\ map snd (train_calls (log w')) = seq 0 12
    /\ map (fun cr => config_hyp (fst cr)) (train_calls (log w'))
       = map Some hyperparameters_list
    /\ NoDup (map (fun cr => c_id (fst cr)) (train_calls (log w')))
    /\ NoDup (map model_id (new_models (log w'))).
Proof.
  destruct (sweep_runs_once_per_grid_point env_tie arg_feedforward
              corpus_abc 28 eq_refl)
    as (w' & st & Hmain & _ & Hruns & Hcalls & Hhyps & _ & _ & Hc & Hm).
  - intros c Hc. vm_compute in Hc. vm_compute.
    repeat (destruct Hc as [<-|Hc]; [tauto|]). contradiction.
  - vm_compute. reflexivity.
  - exists w'. split; [now rewrite Hmain|].
    split; [exact Hruns|]. split; [rewrite Hcalls; reflexivity|].
    split; [exact Hhyps|]. split; [exact Hc | exact Hm].
Defined.

(** C4, as the code has it. In every invocation of [train] whose model type
    is "feedforward" or starts with "gpt", exactly one model is constructed,
    after [config.model.vocab_size] and [config.model.block_size] were set
    from the dataset, and from a configuration carrying the dataset's two
    values ([config.model] for the feedforward class; the root node, which
    holds them a second time, for the gpt class). [train] checks neither
    value: the vocabulary size is positive exactly when the training text is
    not empty, the block size exactly when the data configuration's is. *)
Theorem train_injects_dataset_sizes (E : Env) (config : Config)
  (data_config : DataConfig) (text : list ascii) (val : Tensor * Tensor)
  (run_idx : nat) (w : World) :
  model_type_known (model_type (c_model config)) = true ->
  let ds := CharDataset_init data_config text in
  exists m vl vp w',
    train E config ds val run_idx w = (w', inr (m, vl, vp))
    /\ new_models (log w') = new_models (log w) ++ [m]
    /\ args_vocab_size (model_args m) = Some (get_vocab_size ds)
    /\ args_block_size (model_args m) = Some (get_block_size ds)
    /\ m_vocab_size (args_model_cfg (model_args m)) = Some (get_vocab_size ds)
    /\ m_block_size (args_model_cfg (model_args m)) = Some (get_block_size ds)
    /\ (0 < get_vocab_size ds <-> text <> [])
    /\ (0 < get_block_size ds <-> 0 < block_size data_config).
Proof.
  intros Hmt ds.
  exists (train_model config ds (next_id w)),
    (fst (Trainer_run E (train_trainer config ds val (next_id w)))),
    (snd (Trainer_run E (train_trainer config ds val (next_id w)))).
  eexists. split; [apply train_known; exact Hmt|].
  cbn [log]. rewrite new_models_app.
  destruct (train_model_args_sizes config ds) as (H1 & H2 & H3 & H4).
  split; [reflexivity|].
  cbn [train_model model_args].
  split; [exact H1|]. split; [exact H2|]. split; [exact H3|].
  split; [exact H4|]. split; [apply get_vocab_size_pos|reflexivity].
Qed.

Lemma train_injects_dataset_sizes_witness :
  exists m,
    new_models
      (log (fst (train env_tie (swept_config env_tie arg_gpt 0
                                  (PyFloat.f_2e_4, 200%Z, 48%Z))
                   (CharDataset_init (mkDataConfig 10) corpus_abc)
                   (empty_tensor, empty_tensor) 0 (mkWorld 1 [])))) = [m]
    /\ args_vocab_size (model_args m) = Some 3
    /\ args_block_size (model_args m) = Some 10
    /\ m_vocab_size (args_model_cfg (model_args m)) = Some 3
    /\ m_block_size (args_model_cfg (model_args m)) = Some 10.
Proof.
  destruct (train_injects_dataset_sizes env_tie
              (swept_config env_tie arg_gpt 0 (PyFloat.f_2e_4, 200%Z, 48%Z))
              (mkDataConfig 10) corpus_abc (empty_tensor, empty_tensor) 0
              (mkWorld 1 []) eq_refl)
    as (m & vl & vp & w' & Htrain & Hnew & H1 & H2 & H3 & H4 & _).
  exists m. rewrite Htrain. cbn [fst]. rewrite Hnew.
  split; [reflexivity|]. split; [exact H1|]. split; [exact H2|].
  split; [exact H3 | exact H4].
Defined.

(** C4, counterexample. On the empty corpus the sweep runs, and each of its
    twelve invocations of [train] constructs its model with a vocabulary
    size of 0, which is not positive. *)
Lemma train_empty_corpus_vocab_size_zero :
  map (fun m => args_vocab_size (model_args m))
    (new_models (log (fst (main env_tie arg_feedforward [] world0))))
  = repeat (Some 0) 12
  /\ ~ 0 < 0.
Proof. split; [vm_compute; reflexivity | lia]. Qed.

(** C1. With run 0 the best of the sweep, the summary line reports the
    perplexity and the loss of run 0 next to the grid point of run 11, the
    values the loop variables were left with; the grid point of the best
    run sits unused in [best_hyps]. *)
Theorem summary_prints_last_grid_point :
  exists st,
    snd (main env_first_best arg_feedforward corpus_abc world0) = inr st
    /\ best_val_loss st = PyFloat.f_1_5
    /\ best_val_perplexity st = PyFloat.f_4_0
    /\ best_hyps st = Some (PyFloat.f_2e_4, 200%Z, 48%Z)
    /\ summaries
         (log (fst (main env_first_best arg_feedforward corpus_abc world0)))
       = [(PyFloat.f_4_0, PyFloat.f_1_5, (PyFloat.f_3e_4, 400%Z, 96%Z))]
    /\ (PyFloat.f_3e_4, 400%Z, 96%Z) <> (PyFloat.f_2e_4, 200%Z, 48%Z).
Proof.
  eexists. split; [vm_compute; reflexivity|].
  repeat split; try (vm_compute; reflexivity). discriminate.
Qed.

(** C2. In every run of the sweep the configuration that the [Trainer]
    receives has the learning rate 5e-4 of the default profile; the swept
    learning rate (2e-4 in the first six runs, 3e-4 in the last six) is
    written to [config.model], which in the feedforward sweep only the model
    constructor sees. *)
Theorem trainer_learning_rate_is_default :
  map (fun t => learning_rate (tr_config t))
    (new_trainers
       (log (fst (main env_first_best arg_feedforward corpus_abc world0))))
  = repeat PyFloat.f_5e_4 12
  /\ map (fun t => m_learning_rate (args_model_cfg (model_args (tr_model t))))
       (new_trainers
          (log (fst (main env_first_best arg_feedforward corpus_abc world0))))
     = repeat (Some PyFloat.f_2e_4) 6 ++ repeat (Some PyFloat.f_3e_4) 6
  /\ PyFloat.f_5e_4 <> PyFloat.f_2e_4
  /\ PyFloat.f_5e_4 <> PyFloat.f_3e_4.
Proof.
  split; [vm_compute; reflexivity|].
  split; [vm_compute; reflexivity|].
  split; discriminate.
Qed.

(* ------------------------------------------------------------------ *)
(** * Further properties of [pick_best] and [get_val_dataset] *)

Lemma argmax_from_bound (l : list float) (best_i : nat) (best : float)
  (i : nat) :
  best_i < i -> argmax_from best_i best i l < i + length l.
Proof.
  revert best_i best i. induction l as [|x l IH]; intros best_i best i Hlt.
  - simpl. lia.
  - simpl. destruct (beats x best).
    + specialize (IH i x (S i)). lia.
    + specialize (IH best_i best (S i)). lia.
Qed.

Lemma torch_argmax_bound (scores : list float) (i : nat) :
  torch_argmax scores = inr i -> i < length scores.
Proof.
  destruct scores as [|x l]; simpl; [discriminate|].
  intros [= <-]. pose proof (argmax_from_bound l 0 x 1). lia.
Qed.

(** X1. [pick_best] returns normally exactly on a non-empty list of models,
    and what it returns is one of the models of the list, whatever their
    scores are (NaN and values that round to an infinity in float32
    included): the index that [torch.argmax] yields is always in range. On
    the empty list [torch.argmax] raises [IndexError]. *)
Theorem pick_best_returns_a_member
  (ModelT DataT LossFn Logits : Type)
  (call : ModelT -> DataT -> DataT -> LossFn -> Logits * float)
  (models : list ModelT) (data : DataT * DataT) (loss_fn : LossFn) :
  (models = [] -> pick_best call models data loss_fn = inl IndexError)
  /\ (models <> [] ->
      exists m, pick_best call models data loss_fn = inr m /\ In m models).
Proof.
  destruct data as [inputs targets]. split.
  - intros ->. reflexivity.
  - intros Hne. unfold pick_best. rewrite pick_best_scores_map. simpl app.
    destruct (torch_argmax
                (torch_tensor_floats
                   (map (fun m => snd (call m inputs targets loss_fn))
                      models)))
      as [e|i] eqn:Harg.
    + destruct models; [congruence|discriminate].
    + apply torch_argmax_bound in Harg.
      unfold torch_tensor_floats in Harg. rewrite !length_map in Harg.
      destruct (nth_error models i) as [m|] eqn:Hm.
      * exists m. split; [reflexivity|]. eapply nth_error_In, Hm.
      * apply nth_error_None in Hm. lia.
Qed.

Lemma pick_best_returns_a_member_witness :
  pick_best sample_call [] (empty_tensor, empty_tensor) tt
  = inl IndexError
  /\ exists m,
       pick_best sample_call [2; 0] (empty_tensor, empty_tensor) tt = inr m
       /\ In m [2; 0].
Proof.
  split.
  - apply (proj1 (pick_best_returns_a_member nat Tensor unit unit sample_call
                    [] (empty_tensor, empty_tensor) tt)).
    reflexivity.
  - apply (proj2 (pick_best_returns_a_member nat Tensor unit unit sample_call
                    [2; 0] (empty_tensor, empty_tensor) tt)).
    discriminate.
Defined.

(** X3. Consecutive windows overlap by all but one position: the target of
    window [w] is the input of window [w + 1], for every window that has a
    successor; and the target of the last window is the final [block_size]
    elements of the validation sequence. *)
Theorem get_val_dataset_target_is_next_input (data_config : DataConfig)
  (val_data : list nat) (inputs targets : Tensor) :
  get_val_dataset data_config val_data = inr (inputs, targets) ->
  block_size data_config < length val_data ->
  (forall w, S w < length val_data - block_size data_config ->
     nth_error (rows targets) w = nth_error (rows inputs) (S w))
  /\ nth_error (rows targets) (length val_data - block_size data_config - 1)
     = Some (skipn (length val_data - block_size data_config) val_data).
Proof.
  intros Hget Hlen.
  rewrite (get_val_dataset_known data_config val_data Hlen) in Hget.
  apply inr_eq_inv in Hget. apply pair_eq_inv in Hget.
  destruct Hget as [<- <-]. cbn [rows].
  set (bs := block_size data_config) in *.
  set (n := length val_data - bs) in *.
  split.
  - intros w Hw. rewrite !nth_error_map, !nth_error_seq.
    destruct (Nat.ltb_spec w n); [|lia].
    destruct (Nat.ltb_spec (S w) n); [|lia].
    cbn [option_map]. f_equal. unfold target_window, input_window.
    f_equal; lia.
  - rewrite nth_error_map, nth_error_seq.
    destruct (Nat.ltb_spec (n - 1) n); [|lia].
    cbn [option_map]. f_equal. unfold target_window, py_slice.
    replace (0 + (n - 1) + 1) with n by lia.
    replace (0 + (n - 1) + bs + 1 - n) with bs by lia.
    apply firstn_all2. rewrite length_skipn. lia.
Qed.

Lemma get_val_dataset_target_is_next_input_witness :
  (forall w, S w < 2 ->
     nth_error [[6; 7; 8]; [7; 8; 9]] w
     = nth_error [[5; 6; 7]; [6; 7; 8]] (S w))
  /\ nth_error [[6; 7; 8]; [7; 8; 9]] 1 = Some [7; 8; 9].
Proof.
  apply (get_val_dataset_target_is_next_input (mkDataConfig 3)
           [5; 6; 7; 8; 9]
           (mkTensor [2; 3] [[5; 6; 7]; [6; 7; 8]])
           (mkTensor [2; 3] [[6; 7; 8]; [7; 8; 9]])).
  - reflexivity.
  - simpl. lia.
Defined.

(* ------------------------------------------------------------------ *)
(** * The order of floats, and what the selection keeps *)

Lemma SFcompare_lt_trans (a b c : float) :
  SFcompare a b = Some Lt -> SFcompare b c = Some Lt ->
  SFcompare a c = Some Lt.
Proof.
  destruct a as [sa|sa| |sa ma ea], b as [sb|sb| |sb mb eb],
    c as [sc|sc| |sc mc ec]; simpl;
    try discriminate; try reflexivity;
    try (destruct sa; discriminate); try (destruct sb; discriminate);
    try (destruct sc; discriminate);
    try (destruct sa, sb; discriminate); try (destruct sb, sc; discriminate);
    try (destruct sa, sc; (reflexivity || discriminate));
    try (destruct sa, sb, sc; (reflexivity || discriminate)).
  change (Pos.compare_cont Eq ma mb) with (Pos.compare ma mb).
  change (Pos.compare_cont Eq mb mc) with (Pos.compare mb mc).
  change (Pos.compare_cont Eq ma mc) with (Pos.compare ma mc).
  destruct sa, sb, sc; try discriminate; try reflexivity;
    destruct (Z.compare_spec ea eb), (Z.compare_spec eb ec),
      (Z.compare_spec ea ec);
    try discriminate; try reflexivity; try lia; subst;
    destruct (Pos.compare_spec ma mb), (Pos.compare_spec mb mc),
      (Pos.compare_spec ma mc);
    simpl; try discriminate; try reflexivity; try lia.
Qed.

Lemma ltb_trans (a b c : float) :
  PyFloat.ltb a b = true -> PyFloat.ltb b c = true -> PyFloat.ltb a c = true.
Proof.
  unfold PyFloat.ltb, SFltb. intros Hab Hbc.
  rewrite (SFcompare_lt_trans a b c); [reflexivity| |].
  - destruct (SFcompare a b) as [[ | | ]|]; congruence.
  - destruct (SFcompare b c) as [[ | | ]|]; congruence.
Qed.

Lemma ltb_irrefl (a : float) : PyFloat.ltb a a = false.
Proof.
  unfold PyFloat.ltb, SFltb. pose proof (SFcompare_swap a a) as H.
  destruct (SFcompare a a) as [[ | | ]|]; simpl in H; congruence.
Qed.

Lemma ltb_inf_r (a : float) : PyFloat.ltb PyFloat.inf a = false.
Proof. destruct a as [s|[|]| |s m e]; reflexivity. Qed.

(** The retained loss only goes down. *)
Lemma select_best_decreases
  (results : list (Hyp * (Model * float * float))) :
  forall st,
    best_val_loss (select_best st results) = best_val_loss st
    \/ PyFloat.ltb (best_val_loss (select_best st results))
         (best_val_loss st) = true.
Proof.
  induction results as [|[hyp [[m l] p]] results IH]; intros st.
  - now left.
  - rewrite select_best_cons. cbn [fst snd].
    destruct (IH (update_best st hyp (m, l, p))) as [Heq|Hlt];
      unfold update_best in *;
      destruct (PyFloat.ltb l (best_val_loss st)) eqn:Hl; cbn [best_val_loss] in *.
    + right. now rewrite Heq.
    + left. exact Heq.
    + right. eapply ltb_trans; eauto.
    + right. exact Hlt.
Qed.

Lemma select_best_lower_bound
  (results : list (Hyp * (Model * float * float))) :
  forall st hr,
    In hr results ->
    PyFloat.ltb (result_loss hr) (best_val_loss (select_best st results))
    = false.
Proof.
  induction results as [|[hyp [[m l] p]] results IH]; intros st hr Hin.
  - contradiction.
  - rewrite select_best_cons. cbn [fst snd]. destruct Hin as [<-|Hin].
    + unfold result_loss. cbn [fst snd].
      assert (Hone : PyFloat.ltb l
                (best_val_loss (update_best st hyp (m, l, p))) = false).
      { unfold update_best.
        destruct (PyFloat.ltb l (best_val_loss st)) eqn:Hl;
          cbn [best_val_loss]; [apply ltb_irrefl | exact Hl]. }
      destruct (select_best_decreases results (update_best st hyp (m, l, p)))
        as [Heq|Hlt].
      * now rewrite Heq.
      * destruct (PyFloat.ltb l (best_val_loss (select_best _ results)))
          eqn:Hc; [|reflexivity].
        rewrite (ltb_trans _ _ _ Hc Hlt) in Hone. discriminate.
    + apply IH, Hin.
Qed.

(** The four [best_*] variables move together: they are those of the start
    state, or those of one run whose loss is below the start state's. *)
Lemma select_best_from_run
  (results : list (Hyp * (Model * float * float))) :
  forall st,
    (best_model (select_best st results) = best_model st
     /\ best_val_loss (select_best st results) = best_val_loss st
     /\ best_val_perplexity (select_best st results) = best_val_perplexity st
     /\ best_hyps (select_best st results) = best_hyps st)
    \/ exists i hyp m vl vp,
         nth_error results i = Some (hyp, (m, vl, vp))
         /\ best_model (select_best st results) = Some m
         /\ best_val_loss (select_best st results) = vl
         /\ best_val_perplexity (select_best st results) = vp
         /\ best_hyps (select_best st results) = Some hyp
         /\ PyFloat.ltb vl (best_val_loss st) = true.
Proof.
  induction results as [|[hyp [[m l] p]] results IH]; intros st.
  - left. repeat split.
  - rewrite select_best_cons. cbn [fst snd].
    destruct (IH (update_best st hyp (m, l, p)))
      as [(H1 & H2 & H3 & H4)|(i & hyp' & m' & vl & vp & Hi & H1 & H2 & H3 & H4 & Hlt)].
    + unfold update_best in *.
      destruct (PyFloat.ltb l (best_val_loss st)) eqn:Hl;
        cbn [best_model best_val_loss best_val_perplexity best_hyps] in *.
      * right. exists 0, hyp, m, l, p. repeat split; assumption.
      * left. repeat split; assumption.
    + right. exists (S i), hyp', m', vl, vp.
      split; [exact Hi|]. split; [exact H1|]. split; [exact H2|].
      split; [exact H3|]. split; [exact H4|].
      unfold update_best in Hlt.
      destruct (PyFloat.ltb l (best_val_loss st)) eqn:Hl;
        cbn [best_val_loss] in Hlt.
      * eapply ltb_trans; eauto.
      * exact Hlt.
Qed.

(** X4. After a completed sweep the four [best_*] variables belong
    together. Either no run had a loss below [float('inf')], and they still
    hold their initial values ([None], inf, inf, [None]); or they hold the
    model, the loss and the perplexity returned by one and the same run,
    and the grid point of that run, whose loss is below inf. In both cases
    the retained loss is not NaN: a run that returns NaN is never
    retained. *)
Theorem sweep_best_is_one_run_or_none (E : Env) (a : model_choice)
  (data : list ascii) (w' : World) (st : SweepState) :
  main E a data world0 = (w', inr st) ->
  ((best_model st = None /\ best_val_loss st = PyFloat.inf
    /\ best_val_perplexity st = PyFloat.inf /\ best_hyps st = None
    /\ forall i t vl vp,
         nth_error (runs (log w')) i = Some (t, vl, vp) ->
         PyFloat.ltb vl PyFloat.inf = false)
   \/ exists i t vl vp,
        nth_error (runs (log w')) i = Some (t, vl, vp)
        /\ best_model st = Some (tr_model t)
        /\ best_val_loss st = vl
        /\ best_val_perplexity st = vp
        /\ best_hyps st = nth_error hyperparameters_list i
        /\ PyFloat.ltb vl PyFloat.inf = true)
  /\ PyFloat.is_nan (best_val_loss st) = false.
Proof.
  intros Hmain.
  destruct (main_inr_known E a data w' st Hmain)
    as (k & val_data & val_dataset & Hk & Hmap & Hval & Hmt & Hst & Hlog).
  rewrite Hlog, runs_main_log. clear Hlog Hmain.
  set (ds := CharDataset_init (mkDataConfig 10) (py_slice_to data k)) in *.
  set (its := enumerate hyperparameters_list) in *.
  destruct (select_best_from_run (sweep_results E a ds val_dataset 0 its)
              sweep_init)
    as [(H1 & H2 & H3 & H4)
       |(i & hyp & m & vl & vp & Hi & H1 & H2 & H3 & H4 & Hlt)];
    rewrite <- Hst in *.
  - split; [|rewrite H2; reflexivity].
    left. split; [exact H1|]. split; [exact H2|]. split; [exact H3|].
    split; [exact H4|].
    intros i t vl vp Hi.
    destruct (run_result_nth _ _ _ _ _ _ _ _ _ _ Hi) as (hyp & Hres & _).
    pose proof (select_best_lower_bound _ sweep_init _
                  (nth_error_In _ _ Hres)) as Hlb.
    rewrite <- Hst, H2 in Hlb. exact Hlb.
  - split; [|rewrite H2; apply (ltb_not_nan_l _ _ Hlt)].
    right.
    destruct (result_run_nth _ _ _ _ _ _ _ _ Hi) as (t & vp' & Hr).
    destruct (run_result_nth _ _ _ _ _ _ _ _ _ _ Hr) as (hyp' & Hres & Hhyp).
    rewrite Hi in Hres. injection Hres as Hh Hm Hp.
    unfold result_loss in *. cbn [fst snd] in *. subst hyp' m vp'.
    exists i, t, vl, vp.
    split; [exact Hr|]. split; [exact H1|].
    split; [exact H2|]. split; [exact H3|].
    split; [|exact Hlt].
    unfold its in Hhyp. rewrite enumerate_snd in Hhyp. now rewrite H4, Hhyp.
Qed.

Lemma sweep_best_is_one_run_or_none_witness :
  exists st,
    snd (main env_tie arg_gpt corpus_abc world0) = inr st
    /\ PyFloat.is_nan (best_val_loss st) = false.
Proof.
  exists (match snd (main env_tie arg_gpt corpus_abc world0) with
          | inr st => st
          | inl _ => sweep_init
          end).
  split; [vm_compute; reflexivity|].
  apply (sweep_best_is_one_run_or_none env_tie arg_gpt corpus_abc
           (fst (main env_tie arg_gpt corpus_abc world0))).
  vm_compute. reflexivity.
Defined.

(** X5. After a completed sweep no run has a loss strictly below the
    retained [best_val_loss], whatever the losses are (infinite and NaN
    losses included). *)
Theorem sweep_best_loss_is_lower_bound (E : Env) (a : model_choice)
  (data : list ascii) (w' : World) (st : SweepState)
  (i : nat) (t : Trainer) (vl vp : float) :
  main E a data world0 = (w', inr st) ->
  nth_error (runs (log w')) i = Some (t, vl, vp) ->
  PyFloat.ltb vl (best_val_loss st) = false.
Proof.
  intros Hmain Hi.
  destruct (main_inr_known E a data w' st Hmain)
    as (k & val_data & val_dataset & Hk & Hmap & Hval & Hmt & Hst & Hlog).
  rewrite Hlog, runs_main_log in Hi. clear Hlog Hmain.
  destruct (run_result_nth _ _ _ _ _ _ _ _ _ _ Hi) as (hyp & Hres & _).
  pose proof (select_best_lower_bound _ sweep_init _
                (nth_error_In _ _ Hres)) as Hlb.
  rewrite <- Hst in Hlb. exact Hlb.
Qed.

Lemma sweep_best_loss_is_lower_bound_witness :
  PyFloat.ltb PyFloat.f_2_25
    (best_val_loss
       (match snd (main env_tie arg_feedforward corpus_abc world0) with
        | inr st => st
        | inl _ => sweep_init
        end)) = false.
Proof.
  eapply (sweep_best_loss_is_lower_bound env_tie arg_feedforward corpus_abc
            (fst (main env_tie arg_feedforward corpus_abc world0)) _ 1).
  - vm_compute. reflexivity.
  - vm_compute. reflexivity.
Defined.

(* ------------------------------------------------------------------ *)
(** * What a completed sweep logs *)

Lemma summaries_sweep_events (E : Env) (a : model_choice) (ds : CharDataset)
  (val : Tensor * Tensor) (its : list (nat * Hyp)) (id : nat) :
  summaries (sweep_events E a ds val id its) = [].
Proof.
  revert id. induction its as [|[run_idx hyp] rest IH]; intros id.
  - reflexivity.
  - cbn [sweep_events]. rewrite summaries_app, IH. reflexivity.
Qed.

(** X6. A completed sweep prints the summary line exactly once, as its
    last output, after all twelve runs; the perplexity and the loss it shows
    are the retained [best_val_perplexity] and [best_val_loss]. *)
Theorem summary_is_printed_once_at_the_end (E : Env)
  (a : model_choice) (data : list ascii) (w' : World) (st : SweepState) :
  main E a data world0 = (w', inr st) ->
  exists l lr hd ne,
    log w'
    = l ++ [EvPrintSummary (best_val_perplexity st) (best_val_loss st)
              lr hd ne]
    /\ summaries l = []
    /\ length (runs l) = 12.
Proof.
  intros Hmain.
  destruct (main_inr_known E a data w' st Hmain)
    as (k & val_data & val_dataset & Hk & Hmap & Hval & Hmt & Hst & Hlog).
  eexists. eexists. eexists. eexists.
  split; [exact Hlog|].
  split; [apply summaries_sweep_events|].
  rewrite runs_sweep_events_length. reflexivity.
Qed.

Lemma summary_is_printed_once_at_the_end_witness :
  exists l lr hd ne,
    log (fst (main env_tie arg_gpt corpus_abc world0))
    = l ++ [EvPrintSummary PyFloat.f_2_25 PyFloat.f_1_5 lr hd ne]
    /\ summaries l = []
    /\ length (runs l) = 12.
Proof.
  apply (summary_is_printed_once_at_the_end env_tie arg_gpt corpus_abc
           (fst (main env_tie arg_gpt corpus_abc world0))
           (match snd (main env_tie arg_gpt corpus_abc world0) with
            | inr st => st
            | inl _ => sweep_init
            end)).
  vm_compute. reflexivity.
Defined.

(** X7. Every trainer of a completed sweep receives the optimisation
    settings of the profile of the chosen model kind, the same in all
    twelve runs: 50000 iterations at most, batches of 64, betas
    (0.9, 0.95), weight decay 0.1, gradient clipping at 1.0, patience 5,
    minimal relative improvement 0.05, and a validation interval of 2000
    for feedforward and of 1000 for gpt. *)
Theorem trainers_receive_the_profile (E : Env) (a : model_choice)
  (data : list ascii) (w' : World) (st : SweepState) (t : Trainer) :
  main E a data world0 = (w', inr st) ->
  In t (new_trainers (log w')) ->
  device (tr_config t) = "auto"%string
  /\ num_workers (tr_config t) = 4%Z
  /\ max_iters (tr_config t) = 50000%Z
  /\ batch_size (tr_config t) = 64%Z
  /\ betas (tr_config t) = (PyFloat.f_0_9, PyFloat.f_0_95)
  /\ weight_decay (tr_config t) = PyFloat.f_0_1
  /\ grad_norm_clip (tr_config t) = PyFloat.f_1_0
  /\ patience (tr_config t) = 5%Z
  /\ min_relative_improvement (tr_config t) = PyFloat.f_0_05
  /\ validation_interval (tr_config t)
     = match a with arg_feedforward => 2000%Z | arg_gpt => 1000%Z end.
Proof.
  intros Hmain Ht.
  destruct (main_inr_known E a data w' st Hmain)
    as (k & val_data & val_dataset & Hk & Hmap & Hval & Hmt & Hst & Hlog).
  rewrite Hlog, new_trainers_main_log in Ht.
  apply new_trainers_sweep_In in Ht. destruct Ht as (_ & _ & ->).
  destruct a; repeat split.
Qed.

Lemma trainers_receive_the_profile_witness :
  Forall
    (fun t => validation_interval (tr_config t) = 1000%Z
              /\ patience (tr_config t) = 5%Z)
    (new_trainers (log (fst (main env_tie arg_gpt corpus_abc world0)))).
Proof.
  apply Forall_forall. intros t Ht.
  destruct (trainers_receive_the_profile env_tie arg_gpt corpus_abc
              (fst (main env_tie arg_gpt corpus_abc world0))
              (match snd (main env_tie arg_gpt corpus_abc world0) with
               | inr st => st
               | inl _ => sweep_init
               end) t)
    as (_ & _ & _ & _ & _ & _ & _ & Hp & _ & Hv).
  - vm_compute. reflexivity.
  - exact Ht.
  - split; [exact Hv | exact Hp].
Defined.

Lemma nth_error_combine_seq (A : Type) (l : list A) (s i : nat) :
  nth_error (combine (seq s (length l)) l) i
  = option_map (fun x => (s + i, x)) (nth_error l i).
Proof.
  revert s i. induction l as [|x l IH]; intros s [|i]; simpl; try reflexivity.
  - now rewrite Nat.add_0_r.
  - rewrite IH. destruct (nth_error l i); simpl; [|reflexivity].
    do 2 f_equal. lia.
Qed.

Lemma train_model_args_cfg (c : Config) (ds : CharDataset) :
  m_learning_rate (args_model_cfg (train_model_args c ds))
  = m_learning_rate (c_model c)
  /\ m_hidden_dim (args_model_cfg (train_model_args c ds))
     = m_hidden_dim (c_model c)
  /\ m_n_embd (args_model_cfg (train_model_args c ds)) = m_n_embd (c_model c)
  /\ model_type (args_model_cfg (train_model_args c ds))
     = model_type (c_model c).
Proof.
  unfold train_model_args.
  destruct (String.eqb (model_type (c_model c)) "feedforward"); simpl; auto.
Qed.

Lemma swept_config_fields (E : Env) (a : model_choice) (id : nat)
  (lr : float) (hd ne : Z) :
  m_learning_rate (c_model (swept_config E a id (lr, hd, ne))) = Some lr
  /\ m_hidden_dim (c_model (swept_config E a id (lr, hd, ne))) = Some hd
  /\ m_n_embd (c_model (swept_config E a id (lr, hd, ne))) = Some ne.
Proof. destruct a; repeat split. Qed.

(** X8. In a completed sweep the model of run [i] is the [i]-th model
    constructed, and its constructor receives a configuration in which
    [learning_rate], [hidden_dim] and [n_embd] are those of grid point [i],
    and the vocabulary size and block size are those of the training
    dataset. *)
Theorem model_receives_its_grid_point (E : Env) (a : model_choice)
  (data : list ascii) (w' : World) (st : SweepState) (i : nat) (m : Model) :
  main E a data world0 = (w', inr st) ->
  nth_error (new_models (log w')) i = Some m ->
  exists lr hd ne t vl vp,
    nth_error hyperparameters_list i = Some (lr, hd, ne)
    /\ m_learning_rate (args_model_cfg (model_args m)) = Some lr
    /\ m_hidden_dim (args_model_cfg (model_args m)) = Some hd
    /\ m_n_embd (args_model_cfg (model_args m)) = Some ne
    /\ args_vocab_size (model_args m)
       = Some (get_vocab_size (tr_train_dataset t))
    /\ args_block_size (model_args m) = Some 10
    /\ nth_error (runs (log w')) i = Some (t, vl, vp)
    /\ tr_model t = m.
Proof.
  intros Hmain Hi.
  destruct (main_inr_known E a data w' st Hmain)
    as (k & val_data & val_dataset & Hk & Hmap & Hval & Hmt & Hst & Hlog).
  rewrite Hlog, runs_main_log. rewrite Hlog, new_models_main_log in Hi.
  clear Hlog Hst Hmain.
  set (ds := CharDataset_init (mkDataConfig 10) (py_slice_to data k)) in *.
  pose proof (runs_models_sweep_events E a ds val_dataset
                (enumerate hyperparameters_list) 0) as Hrm.
  apply (f_equal (fun l => nth_error l i)) in Hrm.
  rewrite nth_error_map, Hi in Hrm.
  destruct (nth_error (runs (sweep_events E a ds val_dataset 0
                               (enumerate hyperparameters_list))) i)
    as [[[t vl] vp]|] eqn:Hrun; [|discriminate].
  cbn [option_map fst] in Hrm. injection Hrm as Hrm.
  assert (Htds : tr_train_dataset t = ds).
  { eapply new_trainers_sweep_In.
    rewrite new_trainers_sweep_events.
    apply (in_map (fun r => fst (fst r)) _ (t, vl, vp)).
    eapply nth_error_In, Hrun. }
  rewrite new_models_sweep_events, nth_error_map, nth_error_combine_seq in Hi.
  destruct (nth_error (enumerate hyperparameters_list) i)
    as [[run_idx [[lr hd] ne]]|] eqn:Hit; [|discriminate].
  cbn [option_map fst snd] in Hi. injection Hi as <-.
  assert (Hhyp : nth_error hyperparameters_list i = Some (lr, hd, ne)).
  { rewrite <- (enumerate_snd _ hyperparameters_list), nth_error_map, Hit.
    reflexivity. }
  exists lr, hd, ne, t, vl, vp.
  cbn [train_model model_args].
  destruct (train_model_args_cfg (swept_config E a (0 + 2 * (0 + i)) (lr, hd, ne)) ds)
    as (H1 & H2 & H3 & _).
  destruct (swept_config_fields E a (0 + 2 * (0 + i)) lr hd ne) as (G1 & G2 & G3).
  destruct (train_model_args_sizes (swept_config E a (0 + 2 * (0 + i)) (lr, hd, ne)) ds)
    as (S1 & S2 & _).
  split; [exact Hhyp|]. split; [exact (eq_trans H1 G1)|].
  split; [exact (eq_trans H2 G2)|]. split; [exact (eq_trans H3 G3)|].
  split; [rewrite Htds; exact S1|].
  split; [exact S2|]. split; [reflexivity|]. exact Hrm.
Qed.

Lemma model_receives_its_grid_point_witness :
  exists m lr hd ne,
    nth_error
      (new_models (log (fst (main env_tie arg_gpt corpus_abc world0)))) 3
    = Some m
    /\ nth_error hyperparameters_list 3 = Some (lr, hd, ne)
    /\ m_learning_rate (args_model_cfg (model_args m)) = Some lr
    /\ m_hidden_dim (args_model_cfg (model_args m)) = Some hd
    /\ m_n_embd (args_model_cfg (model_args m)) = Some ne.
Proof.
  eexists. 
  destruct (model_receives_its_grid_point env_tie arg_gpt corpus_abc
              (fst (main env_tie arg_gpt corpus_abc world0))
              (match snd (main env_tie arg_gpt corpus_abc world0) with
               | inr st => st
               | inl _ => sweep_init
               end) 3
              (match nth_error
                       (new_models
                          (log (fst (main env_tie arg_gpt corpus_abc world0))))
                       3 with
               | Some m => m
               | None => mkModel 0 (FeedforwardArgs sample_ff_default)
               end))
    as (lr & hd & ne & t & vl & vp & H0 & H1 & H2 & H3 & _).
  - vm_compute. reflexivity.
  - vm_compute. reflexivity.
  - exists lr, hd, ne. split; [vm_compute; reflexivity|].
    split; [exact H0|]. split; [exact H1|]. split; [exact H2 | exact H3].
Defined.

(* ------------------------------------------------------------------ *)
(** * How the [__main__] block ends *)

Lemma train_unknown_exact (E : Env) (c : Config) (ds : CharDataset)
  (val : Tensor * Tensor) (run_idx : nat) (w : World) :
  model_type_known (model_type (c_model c)) = false ->
  train E c ds val run_idx w
  = (mkWorld (next_id w)
       (log w ++ [EvPrintConfig c; EvSetupLogging c run_idx;
                  EvSetSeed (seed (c_system c))]),
     inl UnboundLocalError).
Proof.
  unfold model_type_known. intros Hk.
  apply orb_false_iff in Hk. destruct Hk as [Hff Hgpt].
  unfold train. run_monad. rewrite Hff, Hgpt. simpl.
  repeat rewrite <- app_assoc. reflexivity.
Qed.

Lemma sweep_body_unknown_exact (E : Env) (a : model_choice)
  (ds : CharDataset) (val : Tensor * Tensor) (st : SweepState)
  (run_idx : nat) (hyp : Hyp) (w : World) :
  model_type_known (model_type (c_model (base_config E a 0))) = false ->
  sweep_body E a ds val st (run_idx, hyp) w
  = (mkWorld (S (next_id w))
       (log w
        ++ [EvPrintConfig (swept_config E a (next_id w) hyp);
            EvSetupLogging (swept_config E a (next_id w) hyp) run_idx;
            EvSetSeed 3407]),
     inl UnboundLocalError).
Proof.
  intros Hk. destruct hyp as [[lr hd] ne].
  unfold sweep_body. unfold bind at 1.
  assert (Hcfg :
    (match a with
     | arg_feedforward => get_ff_config E
     | arg_gpt => get_gpt_config E
     end) w = (mkWorld (S (next_id w)) (log w), inr (base_config E a (next_id w)))).
  { destruct a; reflexivity. }
  rewrite Hcfg. unfold bind.
  change (with_model
            (with_model
               (with_model (base_config E a (next_id w))
                  (fun mc => set_m_learning_rate mc lr))
               (fun mc => set_m_hidden_dim mc hd))
            (fun mc => set_m_n_embd mc ne))
    with (swept_config E a (next_id w) (lr, hd, ne)).
  rewrite train_unknown_exact by (now rewrite swept_config_model_type).
  cbn [next_id log]. destruct a; reflexivity.
Qed.

(** X9. With [--model gpt] the sweep never stops on an unbound [model]:
    [get_gpt_config] overwrites the model type with "gpt-nano", so whatever
    the default profile of the gpt class says, every run takes the gpt
    branch of [train], and the model is constructed from the root
    configuration, onto which [train] has copied the vocabulary size and
    the block size. *)
Theorem gpt_sweep_always_builds_gpt_models (E : Env) (data : list ascii)
  (k : Z) :
  split_index (length data) = inr k ->
  (forall c, In c (py_slice_from data k) -> In c (py_slice_to data k)) ->
  exists w' st,
    main E arg_gpt data world0 = (w', inr st)
    /\ length (new_models (log w')) = 12
    /\ forall m, In m (new_models (log w')) ->
       exists c,
         model_args m = GPTArgs c
         /\ model_type (c_model c) = "gpt-nano"%string
         /\ c_vocab_size c = m_vocab_size (c_model c)
         /\ c_block_size c = Some 10
         /\ m_block_size (c_model c) = Some 10.
Proof.
  intros Hk Hall.
  set (ds := CharDataset_init (mkDataConfig 10) (py_slice_to data k)).
  destruct (stoi_all_defined ds (py_slice_from data k)) as (val_data & Hmap).
  { intros c Hc. apply (stoi_defined (mkDataConfig 10)), Hall, Hc. }
  destruct (get_val_dataset_total (mkDataConfig 10) val_data)
    as (val_dataset & Hval).
  eexists. eexists.
  split; [apply (main_known E arg_gpt data k val_data val_dataset Hk Hmap Hval);
          reflexivity|].
  cbn [log]. fold ds. rewrite new_models_main_log, new_models_sweep_events.
  split; [reflexivity|].
  intros m Hm. apply in_map_iff in Hm.
  destruct Hm as ([i [run_idx [[lr hd] ne]]] & <- & _).
  eexists. split; [reflexivity|]. repeat split.
Qed.

Lemma gpt_sweep_always_builds_gpt_models_witness :
  exists w' st,
    main env_unknown_type arg_gpt corpus_abc world0 = (w', inr st)
    /\ length (new_models (log w')) = 12.
Proof.
  destruct (gpt_sweep_always_builds_gpt_models env_unknown_type corpus_abc 28
              eq_refl) as (w' & st & Hmain & Hlen & _).
  - intros c Hc. vm_compute in Hc. vm_compute.
    repeat (destruct Hc as [<-|Hc]; [tauto|]). contradiction.
  - exists w', st. split; [exact Hmain | exact Hlen].
Defined.

(** X10. With [--model feedforward] and a default profile whose model type
    is neither "feedforward" nor starts with "gpt", the block stops in run 0
    with [UnboundLocalError]: the configuration has been printed, logging
    set up and the seed set, but no model and no trainer is constructed, no
    run is made and no summary is printed. *)
Theorem unknown_model_type_stops_first_run (E : Env) (data : list ascii)
  (k : Z) :
  split_index (length data) = inr k ->
  (forall c, In c (py_slice_from data k) -> In c (py_slice_to data k)) ->
  model_type_known (model_type (Feedforward_get_default_config E)) = false ->
  main E arg_feedforward data world0
  = (mkWorld 1
       [EvPrintConfig
          (swept_config E arg_feedforward 0 (PyFloat.f_2e_4, 200%Z, 48%Z));
        EvSetupLogging
          (swept_config E arg_feedforward 0 (PyFloat.f_2e_4, 200%Z, 48%Z)) 0;
        EvSetSeed 3407],
     inl UnboundLocalError).
Proof.
  intros Hk Hall Hmt.
  set (ds := CharDataset_init (mkDataConfig 10) (py_slice_to data k)).
  destruct (stoi_all_defined ds (py_slice_from data k)) as (val_data & Hmap).
  { intros c Hc. apply (stoi_defined (mkDataConfig 10)), Hall, Hc. }
  destruct (get_val_dataset_total (mkDataConfig 10) val_data)
    as (val_dataset & Hval).
  unfold main. unfold bind at 1. unfold lift at 1. rewrite Hk.
  unfold bind at 1. unfold lift at 1. fold ds. rewrite Hmap.
  unfold bind at 1. unfold lift at 1. rewrite Hval.
  unfold bind at 1.
  change (enumerate hyperparameters_list)
    with ((0, (PyFloat.f_2e_4, 200%Z, 48%Z))
          :: tl (enumerate hyperparameters_list)).
  cbn [sweep_loop]. unfold bind at 1.
  rewrite sweep_body_unknown_exact by exact Hmt.
  reflexivity.
Qed.

Lemma unknown_model_type_stops_first_run_witness :
  snd (main env_unknown_type arg_feedforward corpus_abc world0)
  = inl UnboundLocalError
  /\ new_models
       (log (fst (main env_unknown_type arg_feedforward corpus_abc world0)))
     = [].
Proof.
  rewrite (unknown_model_type_stops_first_run env_unknown_type corpus_abc 28
             eq_refl).
  - split; reflexivity.
  - intros c Hc. vm_compute in Hc. vm_compute.
    repeat (destruct Hc as [<-|Hc]; [tauto|]). contradiction.
  - reflexivity.
Defined.

Lemma main_unknown_exact (E : Env) (a : model_choice) (data : list ascii)
  (k : Z) :
  split_index (length data) = inr k ->
  (forall c, In c (py_slice_from data k) -> In c (py_slice_to data k)) ->
  model_type_known (model_type (c_model (base_config E a 0))) = false ->
  main E a data world0
  = (mkWorld 1
       [EvPrintConfig (swept_config E a 0 (PyFloat.f_2e_4, 200%Z, 48%Z));
        EvSetupLogging (swept_config E a 0 (PyFloat.f_2e_4, 200%Z, 48%Z)) 0;
        EvSetSeed 3407],
     inl UnboundLocalError).
Proof.
  intros Hk Hall Hmt.
  set (ds := CharDataset_init (mkDataConfig 10) (py_slice_to data k)).
  destruct (stoi_all_defined ds (py_slice_from data k)) as (val_data & Hmap).
  { intros c Hc. apply (stoi_defined (mkDataConfig 10)), Hall, Hc. }
  destruct (get_val_dataset_total (mkDataConfig 10) val_data)
    as (val_dataset & Hval).
  unfold main. unfold bind at 1. unfold lift at 1. rewrite Hk.
  unfold bind at 1. unfold lift at 1. fold ds. rewrite Hmap.
  unfold bind at 1. unfold lift at 1. rewrite Hval.
  unfold bind at 1.
  change (enumerate hyperparameters_list)
    with ((0, (PyFloat.f_2e_4, 200%Z, 48%Z))
          :: tl (enumerate hyperparameters_list)).
  cbn [sweep_loop]. unfold bind at 1.
  rewrite sweep_body_unknown_exact by exact Hmt.
  reflexivity.
Qed.

(** X11. A validation part of at most ten characters is not rejected by
    the [__main__] block: with the block size fixed at 10,
    [get_val_dataset] yields no window and raises nothing, the sweep is
    entered (the first run prints its configuration), and whatever the
    outcome of the block, every trainer it has constructed was given a pair
    of empty tensors as its validation dataset. *)
Theorem short_validation_part_gives_empty_tensors (E : Env)
  (a : model_choice) (data : list ascii) (k : Z) (w' : World)
  (r : exn + SweepState) :
  split_index (length data) = inr k ->
  (forall c, In c (py_slice_from data k) -> In c (py_slice_to data k)) ->
  length (py_slice_from data k) <= 10 ->
  main E a data world0 = (w', r) ->
  (exists val_data,
      stoi_all (CharDataset_init (mkDataConfig 10) (py_slice_to data k))
        (py_slice_from data k) = inr val_data
      /\ get_val_dataset (mkDataConfig 10) val_data
         = inr (mkTensor [0] [], mkTensor [0] []))
  /\ nth_error (log w') 0
     = Some (EvPrintConfig
               (swept_config E a 0 (PyFloat.f_2e_4, 200%Z, 48%Z)))
  /\ forall t, In t (new_trainers (log w')) ->
       tr_val_dataset t = (mkTensor [0] [], mkTensor [0] []).
Proof.
  intros Hk Hall Hshort Hmain.
  set (ds := CharDataset_init (mkDataConfig 10) (py_slice_to data k)).
  destruct (stoi_all_defined ds (py_slice_from data k)) as (val_data & Hmap).
  { intros c Hc. apply (stoi_defined (mkDataConfig 10)), Hall, Hc. }
  destruct (stoi_all_inr ds _ val_data Hmap) as [Hlen _].
  assert (Hval : get_val_dataset (mkDataConfig 10) val_data
                 = inr (mkTensor [0] [], mkTensor [0] [])).
  { apply get_val_dataset_empty. simpl. lia. }
  split; [exists val_data; split; [exact Hmap | exact Hval]|].
  destruct (model_type_known (model_type (c_model (base_config E a 0))))
    eqn:Hmt.
  - rewrite (main_known E a data k val_data _ Hk Hmap Hval Hmt) in Hmain.
    apply pair_eq_inv in Hmain. destruct Hmain as [<- _].
    cbn [log]. fold ds. split.
    + reflexivity.
    + rewrite new_trainers_main_log.
      intros t Ht. apply new_trainers_sweep_In in Ht. tauto.
  - rewrite (main_unknown_exact E a data k Hk Hall Hmt) in Hmain.
    apply pair_eq_inv in Hmain. destruct Hmain as [<- _].
    cbn [log]. split; [reflexivity|].
    intros t [].
Qed.

Lemma short_validation_part_gives_empty_tensors_witness :
  length (py_slice_from corpus_short 14) = 6
  /\ length
       (new_trainers
          (log (fst (main env_tie arg_feedforward corpus_short world0))))
     = 12
  /\ forall t,
       In t (new_trainers
               (log (fst (main env_tie arg_feedforward corpus_short
                            world0)))) ->
       tr_val_dataset t = (mkTensor [0] [], mkTensor [0] []).
Proof.
  split; [vm_compute; reflexivity|].
  split; [vm_compute; reflexivity|].
  apply (short_validation_part_gives_empty_tensors env_tie arg_feedforward
           corpus_short 14
           (fst (main env_tie arg_feedforward corpus_short world0))
           (snd (main env_tie arg_feedforward corpus_short world0))
           eq_refl).
  - intros c Hc. vm_compute in Hc. vm_compute.
    repeat (destruct Hc as [<-|Hc]; [tauto|]). contradiction.
  - vm_compute. lia.
  - vm_compute. reflexivity.
Defined.

Lemma stoi_all_inl_first (ds : CharDataset) (s : list ascii) (e : exn) :
  stoi_all ds s = inl e ->
  exists pre c post,
    s = pre ++ c :: post /\ e = KeyError c /\ stoi ds c = None
    /\ forall x, In x pre -> exists j, stoi ds x = Some j.
Proof.
  induction s as [|x s IH]; simpl.
  - discriminate.
  - destruct (stoi ds x) as [j|] eqn:Hx.
    + destruct (stoi_all ds s) as [e'|l'] eqn:Hs; [|discriminate].
      intros [= <-].
      destruct (IH eq_refl) as (pre & c & post & -> & He & Hc & Hpre).
      exists (x :: pre), c, post. repeat split; auto.
      intros y [<-|Hy]; [now exists j | now apply Hpre].
    + intros [= <-]. exists [], x, s. repeat split; auto.
      intros y [].
Qed.

(** X12. When the validation part holds a character that does not occur
    in the training part, the block ends with [KeyError] while mapping the
    validation part, before anything is logged, and the character reported
    is the first one of the validation part, in corpus order, that does not
    occur in the training part. *)
Theorem key_error_reports_first_unseen_character (E : Env)
  (a : model_choice) (data : list ascii) (k : Z) :
  split_index (length data) = inr k ->
  (exists c, In c (py_slice_from data k) /\ ~ In c (py_slice_to data k)) ->
  exists pre c post,
    py_slice_from data k = pre ++ c :: post
    /\ ~ In c (py_slice_to data k)
    /\ (forall x, In x pre -> In x (py_slice_to data k))
    /\ main E a data world0 = (world0, inl (KeyError c)).
Proof.
  intros Hk (c0 & Hval & Htrain).
  set (ds := CharDataset_init (mkDataConfig 10) (py_slice_to data k)).
  destruct (stoi_all ds (py_slice_from data k)) as [e|val_data] eqn:Hmap.
  - destruct (stoi_all_inl_first ds _ e Hmap)
      as (pre & c & post & Hs & -> & Hnone & Hpre).
    exists pre, c, post. split; [exact Hs|]. split; [|split].
    + intros Hin. apply (stoi_defined (mkDataConfig 10)) in Hin.
      destruct Hin as (j & Hj). fold ds in Hj. congruence.
    + intros x Hx. apply (stoi_defined (mkDataConfig 10)). now apply Hpre.
    + apply (main_key_error E a data k _ Hk Hmap).
  - exfalso. destruct (stoi_all_inr ds _ val_data Hmap) as [_ Hnth].
    destruct (In_nth_error _ _ Hval) as (i & Hi).
    destruct (Hnth i c0 Hi) as (j & _ & Hj).
    apply Htrain. apply (stoi_defined (mkDataConfig 10)). now exists j.
Qed.

Lemma key_error_reports_first_unseen_character_witness :
  exists pre post,
    py_slice_from corpus_unseen 28 = pre ++ "z"%char :: post
    /\ ~ In "z"%char (py_slice_to corpus_unseen 28)
    /\ (forall x, In x pre -> In x (py_slice_to corpus_unseen 28))
    /\ main env_tie arg_gpt corpus_unseen world0
       = (world0, inl (KeyError "z"%char)).
Proof.
  destruct (key_error_reports_first_unseen_character env_tie arg_gpt
              corpus_unseen 28 eq_refl)
    as (pre & c & post & Hs & Hnot & Hpre & Hmain).
  - exists "z"%char. split.
    + vm_compute. tauto.
    + vm_compute. intros H.
      repeat (destruct H as [H|H]; [discriminate|]). exact H.
  - assert (Hc : c = "z"%char).
    { assert (Hm : main env_tie arg_gpt corpus_unseen world0
                   = (world0, inl (KeyError "z"%char)))
        by (vm_compute; reflexivity).
      rewrite Hm in Hmain. apply pair_eq_inv in Hmain.
      destruct Hmain as [_ He]. injection He as He. now symmetry. }
    subst c. exists pre, post. repeat split; assumption.
Defined.

(* ------------------------------------------------------------------ *)
(** * The validation tensors and the split *)

Lemma py_slice_In (A : Type) (l : list A) (a b : nat) (x : A) :
  In x (py_slice l a b) -> In x l.
Proof.
  unfold py_slice. intros H.
  rewrite <- (firstn_skipn a l). apply in_or_app. right.
  rewrite <- (firstn_skipn (b - a) (skipn a l)). apply in_or_app. now left.
Qed.

Lemma get_val_dataset_rows_In (data_config : DataConfig)
  (val_data : list nat) (inputs targets : Tensor) (row : list nat) (x : nat) :
  get_val_dataset data_config val_data = inr (inputs, targets) ->
  In row (rows inputs) \/ In row (rows targets) ->
  In x row -> In x val_data.
Proof.
  intros Hget Hrow Hx.
  destruct (Nat.le_gt_cases (length val_data) (block_size data_config))
    as [H|H].
  - rewrite (get_val_dataset_empty data_config val_data H) in Hget.
    apply inr_eq_inv in Hget. apply pair_eq_inv in Hget.
    destruct Hget as [<- <-]. simpl in Hrow. tauto.
  - rewrite (get_val_dataset_known data_config val_data H) in Hget.
    apply inr_eq_inv in Hget. apply pair_eq_inv in Hget.
    destruct Hget as [<- <-]. cbn [rows] in Hrow.
    destruct Hrow as [Hrow|Hrow]; apply in_map_iff in Hrow;
      destruct Hrow as (idx & <- & _); eapply py_slice_In, Hx.
Qed.

Lemma stoi_all_In (ds : CharDataset) (s : list ascii) (l : list nat)
  (j : nat) :
  stoi_all ds s = inr l -> In j l -> exists c, In c s /\ stoi ds c = Some j.
Proof.
  intros Hs Hj. destruct (In_nth_error _ _ Hj) as (i & Hi).
  destruct (stoi_all_inr ds s l Hs) as [Hlen Hnth].
  destruct (nth_error s i) as [c|] eqn:Hc.
  - destruct (Hnth i c Hc) as (j' & Hj' & Hst).
    exists c. split; [eapply nth_error_In, Hc|]. congruence.
  - apply nth_error_None in Hc.
    assert (i < length l) by (apply nth_error_Some; congruence). lia.
Qed.

(** X14. In a completed sweep every entry of the two validation tensors
    that the trainers receive is an index below the vocabulary size of the
    training dataset: the validation windows hold only indices that the
    training vocabulary assigns. *)
Theorem validation_indices_are_in_vocabulary (E : Env) (a : model_choice)
  (data : list ascii) (w' : World) (st : SweepState) (t : Trainer)
  (row : list nat) (j : nat) :
  main E a data world0 = (w', inr st) ->
  In t (new_trainers (log w')) ->
  In row (rows (fst (tr_val_dataset t)))
  \/ In row (rows (snd (tr_val_dataset t))) ->
  In j row ->
  j < get_vocab_size (tr_train_dataset t).
Proof.
  intros Hmain Ht Hrow Hj.
  destruct (main_inr_known E a data w' st Hmain)
    as (k & val_data & val_dataset & Hk & Hmap & Hval & Hmt & Hst & Hlog).
  rewrite Hlog, new_trainers_main_log in Ht.
  apply new_trainers_sweep_In in Ht. destruct Ht as (Hds & Hv & _).
  rewrite Hds. rewrite Hv in Hrow. destruct val_dataset as [inputs targets].
  cbn [fst snd] in Hrow.
  pose proof (get_val_dataset_rows_In _ _ _ _ row j Hval Hrow Hj) as Hin.
  destruct (stoi_all_In _ _ _ j Hmap Hin) as (c & _ & Hc).
  unfold stoi in Hc. apply index_of_nth_error in Hc.
  unfold get_vocab_size. apply nth_error_Some. congruence.
Qed.

Lemma validation_indices_are_in_vocabulary_witness :
  exists t,
    nth_error
      (new_trainers (log (fst (main env_tie arg_gpt corpus_abc world0)))) 0
    = Some t
    /\ 2 < get_vocab_size (tr_train_dataset t).
Proof.
  eexists. split; [vm_compute; reflexivity|].
  eapply (validation_indices_are_in_vocabulary env_tie arg_gpt corpus_abc
            (fst (main env_tie arg_gpt corpus_abc world0))
            (match snd (main env_tie arg_gpt corpus_abc world0) with
             | inr st => st
             | inl _ => sweep_init
             end) _ [1; 2; 0; 1; 2; 0; 1; 2; 0; 1] 2).
  - vm_compute. reflexivity.
  - apply (nth_error_In _ 0). vm_compute. reflexivity.
  - left. vm_compute. left. reflexivity.
  - vm_compute. tauto.
Defined.

(** X15. The split index [int(len(data) * 0.7)], when it is computed, is
    never negative: [data[:split_idx]] is a prefix of the corpus and
    [data[split_idx:]] is what follows it, with no counting from the end,
    and the two parts make up the corpus. *)
Theorem split_is_prefix_and_rest (data : list ascii) (k : Z) :
  split_index (length data) = inr k ->
  (0 <= k)%Z
  /\ py_slice_to data k = firstn (Z.to_nat k) data
  /\ py_slice_from data k = skipn (Z.to_nat k) data
  /\ py_slice_to data k ++ py_slice_from data k = data.
Proof.
  intros Hk. pose proof (split_index_nonneg _ _ Hk) as Hpos.
  split; [exact Hpos|].
  split; [apply py_slice_to_firstn; exact Hpos|].
  split; [apply py_slice_from_skipn; exact Hpos|].
  apply py_slice_partition.
Qed.

Lemma split_is_prefix_and_rest_witness :
  (0 <= 28)%Z
  /\ py_slice_to corpus_abc 28 = firstn 28 corpus_abc
  /\ py_slice_from corpus_abc 28 = skipn 28 corpus_abc
  /\ py_slice_to corpus_abc 28 ++ py_slice_from corpus_abc 28 = corpus_abc.
Proof.
  apply (split_is_prefix_and_rest corpus_abc 28). reflexivity.
Defined.
